(** * yabgp: BGP-LS TLV decoders and the AS_PATH codec

    A shallow embedding of

    - [yabgp/message/attribute/linkstate/node/flex_algo_define.py]
    - [yabgp/message/attribute/linkstate/node/mt_id.py]
    - [yabgp/message/attribute/linkstate/link/app_spec_link_attr.py]

    and of the AS_PATH codec as section 4.6 of the specification and
    [test_aspath.py] describe it, together with the properties the
    specification states.  Python [bytes] objects are lists of [byte];
    Python integers are [Z]; exceptions are the [Raise] branch of a small
    error monad; a [while] loop over a shrinking buffer is a function
    defined by well-founded recursion on the length of the buffer. *)

From Stdlib Require Import String Ascii ZArith Bool Lia List.
From Stdlib Require Import Strings.Byte.
From Equations Require Import Equations.
Import ListNotations.

Set Warnings "-register-all".
Local Open Scope Z_scope.


(** ** Python values and exceptions *)

Definition bytes := list byte.

(** The exceptions the embedded code can raise.  [IndexError] comes from
    [data[i]] out of range, [struct_error] from [struct.unpack] given a
    buffer whose size differs from the one its format needs, and
    [UpdateMessageError] carries the BGP sub-error code. *)
Inductive exn : Type :=
| IndexError
| struct_error
| UpdateMessageError (sub_error : Z)
| OtherException (name : string).

Inductive result (A : Type) : Type :=
| Return (a : A)
| Raise (e : exn).
Arguments Return {A} a.
Arguments Raise {A} e.

Definition bind {A B : Type} (m : result A) (k : A -> result B) : result B :=
  match m with
  | Return a => k a
  | Raise e => Raise e
  end.

Notation "x <- m ;; k" := (bind m (fun x => k))
  (at level 61, m at next level, right associativity).
Notation "' pat <- m ;; k" := (bind m (fun x => match x with pat => k end))
  (at level 61, pat pattern, m at next level, right associativity).

(** The values decoders hand back: [None], integers, strings, lists and
    dictionaries with string keys (kept in insertion order). *)
Inductive pyvalue : Type :=
| VNone
| VInt (n : Z)
| VStr (s : string)
| VList (items : list pyvalue)
| VDict (entries : list (string * pyvalue)).

(** An instance of a [TLV] subclass: the class constants and the decoded
    value given to the constructor. *)
Record tlv : Type := mk_tlv {
  TYPE : Z;
  TYPE_STR : string;
  value : pyvalue
}.

(** Modelled from the spec: [TLV.dict] of [yabgp/tlv.py], which is not
    among the sources; the unit tests compare its result with
    [{'type': TYPE_STR, 'value': value}]. *)
Definition dict (t : tlv) : pyvalue :=
  VDict [("type"%string, VStr (TYPE_STR t)); ("value"%string, value t)].

(** ** Bytes: indexing, slicing, [struct.unpack] *)

Definition byte_val (b : byte) : Z := Z.of_N (Byte.to_N b).

(** [data[i]] for a non-negative index. *)
Definition getitem (data : bytes) (i : nat) : result Z :=
  match nth_error data i with
  | Some b => Return (byte_val b)
  | None => Raise IndexError
  end.

(** [data[i:j]] for non-negative [i], [j]; both ends are clamped to the
    buffer, as Python does. *)
Definition slice (data : bytes) (i j : nat) : bytes :=
  firstn (j - i) (skipn i data).

(** Big-endian unsigned integer held by a byte string. *)
Definition be_uint (bs : bytes) : Z :=
  fold_left (fun acc b => acc * 256 + byte_val b) bs 0.

(** [struct.unpack] with a single unsigned field of [size] bytes in
    network order: the buffer must have exactly that size. *)
Definition unpack_uint (size : nat) (bs : bytes) : result Z :=
  if Nat.eqb (length bs) size then Return (be_uint bs) else Raise struct_error.

Definition unpack_H : bytes -> result Z := unpack_uint 2.  (* '!H' *)
Definition unpack_I : bytes -> result Z := unpack_uint 4.  (* '!I' *)
Definition unpack_Q : bytes -> result Z := unpack_uint 8.  (* '!Q' *)

(** ['!HH'] *)
Definition unpack_HH (bs : bytes) : result (Z * Z) :=
  if Nat.eqb (length bs) 4
  then Return (be_uint (firstn 2 bs), be_uint (skipn 2 bs))
  else Raise struct_error.

(** ['!BBBB'] *)
Definition unpack_BBBB (bs : bytes) : result (Z * Z * Z * Z) :=
  match bs with
  | [a; b; c; d] => Return (byte_val a, byte_val b, byte_val c, byte_val d)
  | _ => Raise struct_error
  end.

(** [range(start, stop, step)] for [step > 0]. *)
Fixpoint range_from (start step count : nat) : list nat :=
  match count with
  | O => []
  | S c => start :: range_from (start + step) step c
  end.

Definition py_range (start stop step : nat) : list nat :=
  range_from start step ((stop - start + step - 1) / step)%nat.

(** A [for] loop whose body may raise: the state is threaded through the
    iterations and the first exception ends the loop. *)
Fixpoint for_each {I S : Type} (idx : list I) (body : I -> S -> result S)
    (s : S) : result S :=
  match idx with
  | [] => Return s
  | i :: rest => s' <- body i s ;; for_each rest body s'
  end.

(** ** flex_algo_define.py: the list-valued sub-TLVs and the flags *)

Module FlexAlgoExcludeAdminGroup.
Definition TYPE : Z := 1040.
Definition TYPE_STR : string := "flex_algo_excl_admin_group".

Definition unpack (data : bytes) : result tlv :=
    admin_groups <-
      for_each (py_range 0 (length data) 4)
        (fun i admin_groups =>
           v <- unpack_I (slice data i (i + 4)) ;;
           Return (admin_groups ++ [VInt v]))
        [] ;;
    Return (mk_tlv TYPE TYPE_STR (VList admin_groups)).
End FlexAlgoExcludeAdminGroup.

Module FlexAlgoIncludeAnyAdminGroup.
Definition TYPE : Z := 1041.
Definition TYPE_STR : string := "flex_algo_incl_any_admin_group".

Definition unpack (data : bytes) : result tlv :=
    admin_groups <-
      for_each (py_range 0 (length data) 4)
        (fun i admin_groups =>
           v <- unpack_I (slice data i (i + 4)) ;;
           Return (admin_groups ++ [VInt v]))
        [] ;;
    Return (mk_tlv TYPE TYPE_STR (VList admin_groups)).
End FlexAlgoIncludeAnyAdminGroup.

Module FlexAlgoIncludeAllAdminGroup.
Definition TYPE : Z := 1042.
Definition TYPE_STR : string := "flex_algo_incl_all_admin_group".

Definition unpack (data : bytes) : result tlv :=
    admin_groups <-
      for_each (py_range 0 (length data) 4)
        (fun i admin_groups =>
           v <- unpack_I (slice data i (i + 4)) ;;
           Return (admin_groups ++ [VInt v]))
        [] ;;
    Return (mk_tlv TYPE TYPE_STR (VList admin_groups)).
End FlexAlgoIncludeAllAdminGroup.

Module FlexAlgoDefinitionFlags.
Definition TYPE : Z := 1043.
Definition TYPE_STR : string := "flex_algo_defn_flags".

Definition unpack (data : bytes) : result tlv :=
    flags <- unpack_H (firstn 2 data) ;;
    let flag := VDict [("M"%string, VInt (Z.shiftr flags 15))] in
    Return (mk_tlv TYPE TYPE_STR flag).
End FlexAlgoDefinitionFlags.

Module FlexAlgoExcludeSRLG.
Definition TYPE : Z := 1044.
Definition TYPE_STR : string := "flex_algo_excl_srlg".

Definition unpack (data : bytes) : result tlv :=
    srlg_list <-
      for_each (py_range 0 (length data) 4)
        (fun i srlg_list =>
           v <- unpack_I (slice data i (i + 4)) ;;
           Return (srlg_list ++ [VInt v]))
        [] ;;
    Return (mk_tlv TYPE TYPE_STR (VList srlg_list)).
End FlexAlgoExcludeSRLG.

(** ** mt_id.py *)

Module MultiTopologyIdentifier.
Definition TYPE : Z := 263.
Definition TYPE_STR : string := "mt_id".

  (** The [while data:] loop; every iteration drops two bytes of a
      non-empty buffer, so the buffer gets shorter. *)
Equations? unpack_loop (data : bytes) (mt_id : list pyvalue)
    : result (list pyvalue) by wf (length data) lt :=
    unpack_loop [] mt_id := Return mt_id;
    unpack_loop (b :: rest) mt_id with unpack_H (firstn 2 (b :: rest)) => {
      | Raise e := Raise e
      | Return v := unpack_loop (skipn 2 (b :: rest)) (mt_id ++ [VInt v]) }.
  Proof.
    destruct rest; simpl; lia.
  Qed.

Definition unpack (data : bytes) : result tlv :=
    mt_id <- unpack_loop data [] ;;
    Return (mk_tlv TYPE TYPE_STR (VList mt_id)).
End MultiTopologyIdentifier.

(** ** Hexadecimal text *)

Definition hex_digit (n : Z) : ascii :=
  match n with
  | 0 => "0" | 1 => "1" | 2 => "2" | 3 => "3"
  | 4 => "4" | 5 => "5" | 6 => "6" | 7 => "7"
  | 8 => "8" | 9 => "9" | 10 => "a" | 11 => "b"
  | 12 => "c" | 13 => "d" | 14 => "e" | _ => "f"
  end%char.

(** [binascii.b2a_hex]: two lower-case digits per byte, as a bytes
    object. *)
Definition b2a_hex (data : bytes) : bytes :=
  flat_map (fun b => [byte_of_ascii (hex_digit (byte_val b / 16));
                      byte_of_ascii (hex_digit (byte_val b mod 16))]) data.

(** [bytes.decode('ascii')] on bytes below 128. *)
Definition decode_ascii (b : bytes) : string := string_of_list_byte b.

(** [str(b)] of a bytes object in Python 3: the literal form of the
    object, prefix and quotes included.  The bytes it is applied to here
    are hex digits, which the literal form shows unescaped. *)
Definition str_of_bytes (b : bytes) : string :=
  ("b'" ++ string_of_list_byte b ++ "'")%string.

(** The digits of [format(n, 'x')] for [n >= 0], most significant
    first, pushed in front of [acc]. *)
Fixpoint hex_digits (fuel : nat) (n : Z) (acc : string) : string :=
  match fuel with
  | O => acc
  | S f =>
      let acc' := String (hex_digit (n mod 16)) acc in
      if n / 16 =? 0 then acc' else hex_digits f (n / 16) acc'
  end.

Definition hex (n : Z) : string :=
  hex_digits (S (Z.to_nat (Z.log2 n))) n EmptyString.

Fixpoint zeros (k : nat) : string :=
  match k with
  | O => EmptyString
  | S k' => String "0"%char (zeros k')
  end.

(** ['0x{:0Wx}'.format(n)]: the digits of [n], padded on the left with
    zeros up to [width] characters, after the ["0x"] prefix. *)
Definition format_0x (width : nat) (n : Z) : string :=
  let digits := hex n in
  ("0x" ++ zeros (width - String.length digits) ++ digits)%string.

(** ** The registry *)

(** [LinkState.registered_tlvs] maps a type code to the class registered
    for it; a class is used through its [unpack] only.  The module that
    holds the dictionary is not among the sources, and most registered
    classes are not either, so the containers take it as a parameter. *)
Definition tlv_class : Type := bytes -> result tlv.
Definition registry : Type := Z -> option tlv_class.

(** ** flex_algo_define.py: the container *)

Module FlexAlgorithmDefine.
Definition TYPE : Z := 1039.
Definition TYPE_STR : string := "flex_algo_defn".

Section WithRegistry.
Variable registered_tlvs : registry.

Equations? sub_tlvs_loop (sub_tlvs_bin_data : bytes) (sub_tlvs : list pyvalue)
      : result (list pyvalue) by wf (length sub_tlvs_bin_data) lt :=
      sub_tlvs_loop [] sub_tlvs := Return sub_tlvs;
      sub_tlvs_loop (b :: rest) sub_tlvs
        with unpack_HH (firstn 4 (b :: rest)) => {
        | Raise e := Raise e
        | Return (sub_tlvs_type_code, sub_tlvs_length)
            with (let sub_tlvs_value :=
                    slice (b :: rest) 4 (4 + Z.to_nat sub_tlvs_length) in
                  match registered_tlvs sub_tlvs_type_code with
                  | Some cls => t <- cls sub_tlvs_value ;; Return (dict t)
                  | None =>
                      Return (VDict
                        [("type"%string, VInt sub_tlvs_type_code);
                         ("value"%string,
                          VStr (str_of_bytes (b2a_hex sub_tlvs_value)))])
                  end) => {
            | Raise e := Raise e
            | Return item :=
                sub_tlvs_loop (skipn (4 + Z.to_nat sub_tlvs_length) (b :: rest))
                              (sub_tlvs ++ [item]) } }.
    Proof.
      destruct rest as [|? [|? [|? l]]]; simpl; try lia.
      pose proof (length_skipn (Z.to_nat sub_tlvs_length) l). lia.
    Qed.

Definition unpack (data : bytes) : result tlv :=
      '(flex_algo, metric_type, calc_type, priority) <-
        unpack_BBBB (firstn 4 data) ;;
      sub_tlvs <- sub_tlvs_loop (skipn 4 data) [] ;;
      Return (mk_tlv TYPE TYPE_STR (VDict
        [("flex_algo"%string, VInt flex_algo);
         ("metric_type"%string, VInt metric_type);
         ("calc_type"%string, VInt calc_type);
         ("priority"%string, VInt priority);
         ("sub_tlvs"%string, VList sub_tlvs)])).
End WithRegistry.
End FlexAlgorithmDefine.

(** ** app_spec_link_attr.py *)

Module AppSpecLinkAttr.
Definition TYPE : Z := 1122.
Definition TYPE_STR : string := "ASLA".

Section WithRegistry.
Variable registered_tlvs : registry.

Equations? sub_tlvs_loop (sub_tlvs_bin_data : bytes) (sub_tlvs : list pyvalue)
      : result (list pyvalue) by wf (length sub_tlvs_bin_data) lt :=
      sub_tlvs_loop [] sub_tlvs := Return sub_tlvs;
      sub_tlvs_loop (b :: rest) sub_tlvs
        with unpack_HH (firstn 4 (b :: rest)) => {
        | Raise e := Raise e
        | Return (sub_tlv_type, sub_tlv_len)
            with (let sub_tlv_value :=
                    slice (b :: rest) 4 (4 + Z.to_nat sub_tlv_len) in
                  match registered_tlvs sub_tlv_type with
                  | Some cls => t <- cls sub_tlv_value ;; Return (dict t)
                  | None =>
                      Return (VDict
                        [("type"%string, VInt sub_tlv_type);
                         ("value"%string,
                          VStr (str_of_bytes (b2a_hex sub_tlv_value)))])
                  end) => {
            | Raise e := Raise e
            | Return item :=
                sub_tlvs_loop (skipn (4 + Z.to_nat sub_tlv_len) (b :: rest))
                              (sub_tlvs ++ [item]) } }.
    Proof.
      destruct rest as [|? [|? [|? l]]]; simpl; try lia.
      pose proof (length_skipn (Z.to_nat sub_tlv_len) l). lia.
    Qed.

Definition unpack (data : bytes) : result tlv :=
      (* fixed header *)
      sabm_len <- getitem data 0 ;;
      udabm_len <- getitem data 1 ;;
      let offset := 4%nat in
      (* SABM *)
      '(sabm, offset) <-
        (if sabm_len >? 0 then
           let sabm_bytes := slice data offset (offset + Z.to_nat sabm_len) in
           sabm <-
             (if sabm_len =? 4 then
                sabm_int <- unpack_I sabm_bytes ;;
                Return (VStr (format_0x 8 sabm_int))
              else if sabm_len =? 8 then
                sabm_int <- unpack_Q sabm_bytes ;;
                Return (VStr (format_0x 16 sabm_int))
              else
                Return (VStr ("0x" ++ decode_ascii (b2a_hex sabm_bytes)))) ;;
           Return (sabm, (offset + Z.to_nat sabm_len)%nat)
         else Return (VNone, offset)) ;;
      (* UDABM *)
      '(udabm, offset) <-
        (if udabm_len >? 0 then
           let udabm_bytes := slice data offset (offset + Z.to_nat udabm_len) in
           udabm <-
             (if udabm_len =? 4 then
                udabm_int <- unpack_I udabm_bytes ;;
                Return (VStr (format_0x 8 udabm_int))
              else if udabm_len =? 8 then
                udabm_int <- unpack_Q udabm_bytes ;;
                Return (VStr (format_0x 16 udabm_int))
              else
                Return (VStr ("0x" ++ decode_ascii (b2a_hex udabm_bytes)))) ;;
           Return (udabm, (offset + Z.to_nat udabm_len)%nat)
         else Return (VNone, offset)) ;;
      (* sub-TLVs *)
      sub_tlvs <- sub_tlvs_loop (skipn offset data) [] ;;
      Return (mk_tlv TYPE TYPE_STR (VDict
        [("sabm"%string,
          VDict [("len"%string, VInt sabm_len); ("value"%string, sabm)]);
         ("udabm"%string,
          VDict [("len"%string, VInt udabm_len); ("value"%string, udabm)]);
         ("sub_tlvs"%string, VList sub_tlvs)])).
End WithRegistry.
End AppSpecLinkAttr.

(** ** The part of the registry filled by the sources at hand

    The five classes of this development that decode a value without
    looking anything up.  The running program registers many more
    (the TE metric and the two containers among them); no type code
    outside the BGP-LS assignments, [0xffff] for one, is registered. *)
Definition leaf_tlvs : registry := fun t =>
  if t =? MultiTopologyIdentifier.TYPE then Some MultiTopologyIdentifier.unpack
  else if t =? FlexAlgoExcludeAdminGroup.TYPE then Some FlexAlgoExcludeAdminGroup.unpack
  else if t =? FlexAlgoIncludeAnyAdminGroup.TYPE then Some FlexAlgoIncludeAnyAdminGroup.unpack
  else if t =? FlexAlgoIncludeAllAdminGroup.TYPE then Some FlexAlgoIncludeAllAdminGroup.unpack
  else if t =? FlexAlgoDefinitionFlags.TYPE then Some FlexAlgoDefinitionFlags.unpack
  else if t =? FlexAlgoExcludeSRLG.TYPE then Some FlexAlgoExcludeSRLG.unpack
  else None.

(** ** AS_PATH *)

Definition byte_of_Z (z : Z) : byte :=
  match Byte.of_N (Z.to_N z) with
  | Some b => b
  | None => x00
  end.

(** The [size] bytes of [n] in network order. *)
Fixpoint be_bytes (size : nat) (n : Z) : bytes :=
  match size with
  | O => []
  | S k => be_bytes k (n / 256) ++ [byte_of_Z (n mod 256)]
  end.

(** [struct.pack] with a single unsigned field of [size] bytes in
    network order: the number must fit the field. *)
Definition pack_uint (size : nat) (n : Z) : result bytes :=
  if (0 <=? n) && (n <? 256 ^ Z.of_nat size)
  then Return (be_bytes size n)
  else Raise struct_error.

Module ASPath.
  (** Modelled from the spec: the AS_PATH codec of
      [yabgp/message/attribute/aspath.py], which is not among the
      sources.  The definitions follow section 4.6 of the specification
      and the byte strings of [test_aspath.py]: [parse] takes the
      attribute value, [construct] gives the whole attribute, header
      first. *)

Definition ID : Z := 2.
Definition FLAG : Z := 64.              (* 0x40, transitive *)
Definition FLAG_EXT_LEN : Z := 16.      (* 0x10, two length bytes *)

Definition AS_SET : Z := 1.
Definition AS_SEQUENCE : Z := 2.
Definition AS_CONFED_SEQUENCE : Z := 3.
Definition AS_CONFED_SET : Z := 4.

  (** RFC 4271 section 4.5, UPDATE message error sub-codes. *)
Definition ERR_MSG_UPDATE_ATTR_LEN : Z := 5.
Definition ERR_MSG_UPDATE_MALFORMED_ASPATH : Z := 11.

Definition segment : Type := (Z * list Z)%type.

Definition asn_width (asn4 : bool) : nat := if asn4 then 4%nat else 2%nat.

Definition valid_segment_type (t : Z) : bool :=
    (t =? AS_SET) || (t =? AS_SEQUENCE) || (t =? AS_CONFED_SEQUENCE)
    || (t =? AS_CONFED_SET).

  (** Modelled from the spec: reads [count] ASNs of [width] bytes each. *)
Fixpoint read_asns (count width : nat) (body : bytes) : list Z :=
    match count with
    | O => []
    | S c => be_uint (firstn width body) :: read_asns c width (skipn width body)
    end.

  (** Modelled from the spec: the decode loop of section 4.6.  A 2-byte
      header is read, the segment type is checked, then the ASNs the
      header counts are read. *)
Equations? parse_loop (asn4 : bool) (value : bytes) (aspath : list segment)
    : result (list segment) by wf (length value) lt :=
    parse_loop asn4 [] aspath := Return aspath;
    parse_loop asn4 [_] aspath :=
      Raise (UpdateMessageError ERR_MSG_UPDATE_ATTR_LEN);
    parse_loop asn4 (t :: c :: body) aspath
      with valid_segment_type (byte_val t) => {
      | false := Raise (UpdateMessageError ERR_MSG_UPDATE_MALFORMED_ASPATH)
      | true with Nat.ltb (length body) (Z.to_nat (byte_val c) * asn_width asn4) => {
          | true := Raise (UpdateMessageError ERR_MSG_UPDATE_ATTR_LEN)
          | false :=
              parse_loop asn4
                (skipn (Z.to_nat (byte_val c) * asn_width asn4) body)
                (aspath ++
                 [(byte_val t,
                   read_asns (Z.to_nat (byte_val c)) (asn_width asn4) body)]) } }.
  Proof.
    pose proof (length_skipn (Z.to_nat (byte_val c) * asn_width asn4) body). lia.
  Qed.

  (** Modelled from the spec: [ASPath.parse(value, asn4)]. *)
Definition parse (value : bytes) (asn4 : bool) : result (list segment) :=
    parse_loop asn4 value [].

  (** Modelled from the spec: the attribute header, flags then type code
      then length; the length takes one byte, or two with the
      extended-length flag when it does not fit one. *)
Definition attribute_header (len : nat) : result bytes :=
    if Nat.leb len 255 then
      f <- pack_uint 1 FLAG ;;
      i <- pack_uint 1 ID ;;
      l <- pack_uint 1 (Z.of_nat len) ;;
      Return (f ++ i ++ l)
    else
      f <- pack_uint 1 (FLAG + FLAG_EXT_LEN) ;;
      i <- pack_uint 1 ID ;;
      l <- pack_uint 2 (Z.of_nat len) ;;
      Return (f ++ i ++ l).

  (** Modelled from the spec: the octets of the segments, each a 2-byte
      header followed by its ASNs at the negotiated width. *)
Definition construct_value (value : list segment) (asn4 : bool)
    : result bytes :=
    for_each value
      (fun seg as_path_raw =>
         let '(seg_type, as_path_list) := seg in
         as_seg_raw <-
           for_each as_path_list
             (fun asn as_seg_raw =>
                a <- pack_uint (asn_width asn4) asn ;;
                Return (as_seg_raw ++ a))
             [] ;;
         t <- pack_uint 1 seg_type ;;
         n <- pack_uint 1 (Z.of_nat (length as_path_list)) ;;
         Return (as_path_raw ++ t ++ n ++ as_seg_raw))
      [].

  (** Modelled from the spec: [ASPath.construct(value, asn4)]. *)
Definition construct (value : list segment) (asn4 : bool) : result bytes :=
    as_path_raw <- construct_value value asn4 ;;
    header <- attribute_header (length as_path_raw) ;;
    Return (header ++ as_path_raw).
End ASPath.


(** ** Definitions used to state the properties *)

(** The unsigned integers held by the whole [width]-byte chunks of a
    buffer, in order. *)
Definition chunk_values (width : nat) (data : bytes) : list Z :=
  map (fun k => be_uint (slice data (width * k) (width * k + width)))
      (seq 0 (length data / width)).

(** Exactly [w] digits of [n], most significant first, in front of
    [acc]. *)
Fixpoint hex_fixed (w : nat) (n : Z) (acc : string) : string :=
  match w with
  | O => acc
  | S w' => hex_fixed w' (n / 16) (String (hex_digit (n mod 16)) acc)
  end.

(** The value a sub-TLV walk appends for an envelope of type [t] and
    value [v]: the dictionary of the registered class, or the fallback
    record of a type that is not registered. *)
Definition dispatch (registered_tlvs : registry) (t : Z) (v : bytes)
  : result pyvalue :=
  match registered_tlvs t with
  | Some cls => x <- cls v ;; Return (dict x)
  | None =>
      Return (VDict [("type"%string, VInt t);
                     ("value"%string, VStr (str_of_bytes (b2a_hex v)))])
  end.

(** The text of a mask of declared length [len] whose bytes are [mask]:
    [None] for length 0, the hexadecimal dump after ["0x"] otherwise. *)
Definition mask_value (len : Z) (mask : bytes) : pyvalue :=
  if len =? 0 then VNone
  else VStr ("0x" ++ decode_ascii (b2a_hex mask)).

(** Division and remainder by a non-zero constant, as facts [lia] can
    use. *)
Ltac div_mod_facts n d :=
  pose proof (Nat.div_mod_eq n d);
  pose proof (Nat.mod_upper_bound n d ltac:(lia)).


(** A segment [construct] can encode and [parse] gives back: a segment
    type among the four, at most 255 ASNs (the count takes one byte),
    each ASN within the negotiated width. *)
Definition well_formed_segment (asn4 : bool) (seg : ASPath.segment) : Prop :=
  ASPath.valid_segment_type (fst seg) = true /\
  (length (snd seg) <= 255)%nat /\
  Forall (fun asn => 0 <= asn < 256 ^ Z.of_nat (ASPath.asn_width asn4)) (snd seg).

(** The same, as a test on a whole path. *)
Definition well_formed (asn4 : bool) (path : list ASPath.segment) : bool :=
  forallb
    (fun seg =>
       ASPath.valid_segment_type (fst seg)
       && Nat.leb (length (snd seg)) 255
       && forallb
            (fun asn =>
               (0 <=? asn) && (asn <? 256 ^ Z.of_nat (ASPath.asn_width asn4)))
            (snd seg))
    path.

(** The number of octets the segments of a path take on the wire. *)
Definition encoded_size (asn4 : bool) (path : list ASPath.segment) : nat :=
  list_sum (map (fun seg => (2 + ASPath.asn_width asn4 * length (snd seg))%nat) path).

(** The octets of one segment. *)
Definition segment_octets (asn4 : bool) (seg : ASPath.segment) : bytes :=
  be_bytes 1 (fst seg) ++ be_bytes 1 (Z.of_nat (length (snd seg)))
  ++ flat_map (be_bytes (ASPath.asn_width asn4)) (snd seg).


(** The value part of an encoded attribute: what follows the flags, the
    type code and the length, which takes two bytes when the flags have
    the extended-length bit. *)
Definition attribute_value (octets : bytes) : bytes :=
  match octets with
  | [] => []
  | flags :: _ =>
      if Z.testbit (byte_val flags) 4 then skipn 4 octets else skipn 3 octets
  end.


(** A mask declared 4 or 8 bytes long of which fewer bytes are there:
    the case in which [struct.unpack] refuses the mask. *)
Definition mask_short (len : Z) (mask : bytes) : bool :=
  ((len =? 4) || (len =? 8)) && negb (Nat.eqb (length mask) (Z.to_nat len)).


(** ** Definitions used to state further properties *)

(** A complete sub-TLV on the wire: type code and value length on two
    bytes each, in network order, then the value. *)
Definition envelope (t : Z) (v : bytes) : bytes :=
  be_bytes 2 t ++ be_bytes 2 (Z.of_nat (length v)) ++ v.

(** Type code and value length both fit their 16-bit fields. *)
Definition envelope_ok (tv : Z * bytes) : bool :=
  (0 <=? fst tv) && (fst tv <? 65536) && (Z.of_nat (length (snd tv)) <? 65536).

(** The bytes of a sequence of complete sub-TLVs. *)
Definition envelopes (tlvs : list (Z * bytes)) : bytes :=
  flat_map (fun tv => envelope (fst tv) (snd tv)) tlvs.

(** Every number of the list fits [size] bytes. *)
Definition all_fit (size : nat) (vs : list Z) : bool :=
  forallb (fun v => (0 <=? v) && (v <? 256 ^ Z.of_nat size)) vs.

(** The numeric value of a lower-case hexadecimal digit, from its
    character code ([0]..[9] are 48..57, [a]..[f] are 97..102); [None]
    for any other character. *)
Definition hex_digit_value (c : ascii) : option Z :=
  let code := Z.of_N (N_of_ascii c) in
  if (48 <=? code) && (code <=? 57) then Some (code - 48)
  else if (97 <=? code) && (code <=? 102) then Some (code - 87)
  else None.

(** Reads back a string of lower-case hexadecimal digit pairs as bytes;
    [None] when a character is no such digit or one digit is left over. *)
Fixpoint bytes_of_hex (s : string) : option bytes :=
  match s with
  | EmptyString => Some []
  | String hi (String lo rest) =>
      match hex_digit_value hi, hex_digit_value lo, bytes_of_hex rest with
      | Some h, Some l, Some bs => Some (byte_of_Z (h * 16 + l) :: bs)
      | _, _, _ => None
      end
  | String _ EmptyString => None
  end.

(** * Properties *)

(** ** Bytes and slices *)

Lemma byte_val_range (b : byte) : 0 <= byte_val b < 256.
Proof.
  unfold byte_val. pose proof (Byte.to_N_bounded b). lia.
Qed.

Lemma be_uint_snoc (bs : bytes) (b : byte) :
  be_uint (bs ++ [b]) = be_uint bs * 256 + byte_val b.
Proof.
  unfold be_uint. rewrite fold_left_app. reflexivity.
Qed.

Lemma be_uint_range (bs : bytes) : 0 <= be_uint bs < 256 ^ Z.of_nat (length bs).
Proof.
  induction bs as [|b bs IH] using rev_ind.
  - unfold be_uint. simpl. lia.
  - rewrite be_uint_snoc, length_app. simpl length.
    replace (Z.of_nat (length bs + 1)) with (Z.succ (Z.of_nat (length bs))) by lia.
    rewrite Z.pow_succ_r by lia.
    pose proof (byte_val_range b). nia.
Qed.

Lemma length_slice (data : bytes) (i j : nat) :
  length (slice data i j) = Nat.min (j - i) (length data - i).
Proof.
  unfold slice. rewrite length_firstn, length_skipn. reflexivity.
Qed.

Lemma slice_skipn (data : bytes) (n i j : nat) :
  slice (skipn n data) i j = slice data (n + i) (n + j).
Proof.
  unfold slice. rewrite skipn_skipn.
  replace (n + j - (n + i))%nat with (j - i)%nat by lia.
  replace (i + n)%nat with (n + i)%nat by lia. reflexivity.
Qed.

Lemma unpack_uint_ok (size : nat) (bs : bytes) :
  length bs = size -> unpack_uint size bs = Return (be_uint bs).
Proof.
  intros H. unfold unpack_uint. rewrite (proj2 (Nat.eqb_eq _ _) H). reflexivity.
Qed.

Lemma unpack_uint_short (size : nat) (bs : bytes) :
  length bs <> size -> unpack_uint size bs = Raise struct_error.
Proof.
  intros H. unfold unpack_uint. rewrite (proj2 (Nat.eqb_neq _ _) H). reflexivity.
Qed.

Lemma length_chunk_values (width : nat) (data : bytes) :
  length (chunk_values width data) = (length data / width)%nat.
Proof.
  unfold chunk_values. rewrite length_map, length_seq. reflexivity.
Qed.

Lemma nth_chunk_values (width : nat) (data : bytes) (k : nat) :
  (k < length data / width)%nat ->
  nth k (chunk_values width data) 0
  = be_uint (slice data (width * k) (width * k + width)).
Proof.
  intros Hk. unfold chunk_values.
  set (f := fun k => be_uint (slice data (width * k) (width * k + width))).
  rewrite (nth_indep _ 0 (f O)) by (rewrite length_map, length_seq; exact Hk).
  rewrite map_nth, seq_nth by exact Hk. reflexivity.
Qed.

Lemma chunk_values_range (width : nat) (data : bytes) (v : Z) :
  (0 < width)%nat ->
  In v (chunk_values width data) -> 0 <= v < 256 ^ Z.of_nat width.
Proof.
  intros Hw Hin. unfold chunk_values in Hin.
  apply in_map_iff in Hin. destruct Hin as (k & <- & Hk).
  apply in_seq in Hk.
  pose proof (be_uint_range (slice data (width * k) (width * k + width))) as Hr.
  rewrite length_slice in Hr.
  assert (width * S k <= length data)%nat.
  { pose proof (Nat.Div0.mul_div_le (length data) width). nia. }
  replace (Nat.min (width * k + width - width * k) (length data - width * k))
    with width in Hr by lia.
  exact Hr.
Qed.

Lemma chunk_values_cons (width : nat) (data : bytes) :
  (0 < width <= length data)%nat ->
  chunk_values width data
  = be_uint (firstn width data) :: chunk_values width (skipn width data).
Proof.
  intros Hw. unfold chunk_values.
  assert (Hdiv : (length data / width = S (length (skipn width data) / width))%nat).
  { rewrite length_skipn.
    replace (length data) with (1 * width + (length data - width))%nat at 1 by lia.
    rewrite Nat.div_add_l by lia. lia. }
  rewrite Hdiv. cbn [seq map]. f_equal.
  - unfold slice. rewrite Nat.mul_0_r. simpl skipn.
    replace (0 + width - 0)%nat with width by lia. reflexivity.
  - rewrite <- seq_shift, map_map. apply map_ext. intros k.
    rewrite slice_skipn. f_equal. f_equal; lia.
Qed.

(** ** The [for i in range(0, len(data), 4)] loop of the list-valued
    sub-TLVs *)

Lemma range_from_seq (start step count : nat) :
  range_from start step count
  = map (fun k => (start + step * k)%nat) (seq 0 count).
Proof.
  revert start. induction count as [|c IH]; intros start.
  - reflexivity.
  - cbn [range_from seq map]. f_equal; [lia|].
    rewrite IH, <- seq_shift, map_map. apply map_ext. intros k. lia.
Qed.

Lemma py_range_0_4 (n : nat) :
  py_range 0 n 4 = map (fun k => (4 * k)%nat) (seq 0 ((n + 3) / 4)).
Proof.
  unfold py_range. rewrite range_from_seq.
  replace (n - 0 + 4 - 1)%nat with (n + 3)%nat by lia.
  apply map_ext. intros k. lia.
Qed.

Section U32Loop.
Variable data : bytes.

Let body := fun (i : nat) (acc : list pyvalue) =>
    v <- unpack_I (slice data i (i + 4)) ;; Return (acc ++ [VInt v]).

Lemma u32_loop_ok (idx : list nat) (acc : list pyvalue) :
    (forall i, In i idx -> (i + 4 <= length data)%nat) ->
    for_each idx body acc
    = Return (acc ++ map (fun i => VInt (be_uint (slice data i (i + 4)))) idx).
  Proof.
    revert acc. induction idx as [|i idx IH]; intros acc Hfull.
    - simpl. rewrite app_nil_r. reflexivity.
    - cbn [for_each]. unfold body at 1. unfold unpack_I.
      rewrite unpack_uint_ok.
      + cbn [bind]. rewrite IH by (intros j Hj; apply Hfull; right; exact Hj).
        rewrite <- app_assoc. reflexivity.
      + rewrite length_slice. specialize (Hfull i (or_introl eq_refl)). lia.
  Qed.

Lemma u32_loop_short (idx : list nat) (acc : list pyvalue) :
    (exists i, In i idx /\ (length data < i + 4)%nat) ->
    for_each idx body acc = Raise struct_error.
  Proof.
    revert acc. induction idx as [|i idx IH]; intros acc (j & Hin & Hj).
    - destruct Hin.
    - cbn [for_each]. unfold body at 1. unfold unpack_I.
      destruct (Nat.le_gt_cases (i + 4) (length data)) as [Hle|Hgt].
      + rewrite unpack_uint_ok by (rewrite length_slice; lia).
        cbn [bind]. apply IH. exists j. split; [|exact Hj].
        destruct Hin as [->|Hin]; [lia|exact Hin].
      + rewrite unpack_uint_short by (rewrite length_slice; lia).
        reflexivity.
  Qed.

Lemma u32_loop_multiple (acc : list pyvalue) :
    (length data mod 4 = 0)%nat ->
    for_each (py_range 0 (length data) 4) body acc
    = Return (acc ++ map VInt (chunk_values 4 data)).
  Proof.
    intros Hmod. rewrite py_range_0_4.
    div_mod_facts (length data) 4%nat. div_mod_facts (length data + 3)%nat 4%nat.
    assert (Hcnt : ((length data + 3) / 4 = length data / 4)%nat) by lia.
    rewrite Hcnt, u32_loop_ok.
    - unfold chunk_values. rewrite !map_map. reflexivity.
    - intros i Hi. apply in_map_iff in Hi. destruct Hi as (k & <- & Hk).
      apply in_seq in Hk. lia.
  Qed.

Lemma u32_loop_partial (acc : list pyvalue) :
    (length data mod 4 <> 0)%nat ->
    for_each (py_range 0 (length data) 4) body acc = Raise struct_error.
  Proof.
    intros Hmod. rewrite py_range_0_4. apply u32_loop_short.
    div_mod_facts (length data) 4%nat. div_mod_facts (length data + 3)%nat 4%nat.
    exists (4 * (length data / 4))%nat. split; [|lia].
    apply in_map_iff. exists (length data / 4)%nat. split; [reflexivity|].
    apply in_seq. lia.
  Qed.
End U32Loop.

(** ** Claims on the list-valued sub-TLVs of the Flexible Algorithm
Definition *)

(** C5.  Each of the decoders of FlexAlgoExcludeAdminGroup,
    FlexAlgoIncludeAnyAdminGroup, FlexAlgoIncludeAllAdminGroup and
    FlexAlgoExcludeSRLG, given a buffer whose length is a multiple of 4,
    returns the list of the [len(data)/4] big-endian 32-bit values of its
    4-byte chunks, in order; given a buffer whose length is not a multiple
    of 4 it raises [struct.error] and returns no list. *)
Theorem u32_list_decoders (data : bytes) :
  ((length data mod 4 = 0)%nat ->
   let vs := chunk_values 4 data in
   length vs = (length data / 4)%nat /\
   (forall k, (k < length data / 4)%nat ->
      nth k vs 0 = be_uint (slice data (4 * k) (4 * k + 4)) /\
      0 <= nth k vs 0 < 2 ^ 32) /\
   FlexAlgoExcludeAdminGroup.unpack data
     = Return (mk_tlv 1040 "flex_algo_excl_admin_group" (VList (map VInt vs))) /\
   FlexAlgoIncludeAnyAdminGroup.unpack data
     = Return (mk_tlv 1041 "flex_algo_incl_any_admin_group" (VList (map VInt vs))) /\
   FlexAlgoIncludeAllAdminGroup.unpack data
     = Return (mk_tlv 1042 "flex_algo_incl_all_admin_group" (VList (map VInt vs))) /\
   FlexAlgoExcludeSRLG.unpack data
     = Return (mk_tlv 1044 "flex_algo_excl_srlg" (VList (map VInt vs))))
  /\
  ((length data mod 4 <> 0)%nat ->
   FlexAlgoExcludeAdminGroup.unpack data = Raise struct_error /\
   FlexAlgoIncludeAnyAdminGroup.unpack data = Raise struct_error /\
   FlexAlgoIncludeAllAdminGroup.unpack data = Raise struct_error /\
   FlexAlgoExcludeSRLG.unpack data = Raise struct_error).
Proof.
  split; intros Hmod.
  - cbv zeta. split; [apply length_chunk_values|]. split.
    + intros k Hk. split; [apply nth_chunk_values; exact Hk|].
      change (2 ^ 32) with (256 ^ Z.of_nat 4).
      apply (chunk_values_range 4 data); [lia|].
      apply nth_In. rewrite length_chunk_values. exact Hk.
    + unfold FlexAlgoExcludeAdminGroup.unpack, FlexAlgoIncludeAnyAdminGroup.unpack,
        FlexAlgoIncludeAllAdminGroup.unpack, FlexAlgoExcludeSRLG.unpack.
      rewrite (u32_loop_multiple data [] Hmod). cbn [bind app].
      repeat split; reflexivity.
  - unfold FlexAlgoExcludeAdminGroup.unpack, FlexAlgoIncludeAnyAdminGroup.unpack,
      FlexAlgoIncludeAllAdminGroup.unpack, FlexAlgoExcludeSRLG.unpack.
    rewrite (u32_loop_partial data [] Hmod). cbn [bind].
    repeat split; reflexivity.
Qed.

(** The literal of C5: [00000064 0000012c 000001f4] decodes to
    [[100, 300, 500]]; a 7-byte buffer is refused. *)
Lemma u32_list_decoders_witness :
  ((length [x00;x00;x00;x64; x00;x00;x01;x2c; x00;x00;x01;xf4] mod 4 = 0)%nat /\
   FlexAlgoExcludeSRLG.unpack
     [x00;x00;x00;x64; x00;x00;x01;x2c; x00;x00;x01;xf4]
   = Return (mk_tlv 1044 "flex_algo_excl_srlg"
               (VList [VInt 100; VInt 300; VInt 500])))
  /\
  ((length [x00;x00;x00;x64; x00;x00;x01] mod 4 <> 0)%nat /\
   FlexAlgoExcludeAdminGroup.unpack [x00;x00;x00;x64; x00;x00;x01]
   = Raise struct_error).
Proof.
  split.
  - split; [reflexivity|].
    exact (proj2 (proj2 (proj2 (proj2 (proj2
      (proj1 (u32_list_decoders
                [x00;x00;x00;x64; x00;x00;x01;x2c; x00;x00;x01;xf4])
         eq_refl)))))).
  - assert (H : (length [x00;x00;x00;x64; x00;x00;x01] mod 4 <> 0)%nat)
      by (simpl; discriminate).
    split; [exact H|].
    exact (proj1 (proj2 (u32_list_decoders [x00;x00;x00;x64; x00;x00;x01]) H)).
Defined.

(** C10.  The four list-valued decoders agree on every buffer: they fail
    with the same exception or return the same list of values, and the
    instances they build differ in [TYPE] and [TYPE_STR] only. *)
Theorem u32_list_decoders_agree (data : bytes) :
  let values (r : result tlv) := t <- r ;; Return (value t) in
  values (FlexAlgoExcludeAdminGroup.unpack data)
    = values (FlexAlgoIncludeAnyAdminGroup.unpack data) /\
  values (FlexAlgoIncludeAnyAdminGroup.unpack data)
    = values (FlexAlgoIncludeAllAdminGroup.unpack data) /\
  values (FlexAlgoIncludeAllAdminGroup.unpack data)
    = values (FlexAlgoExcludeSRLG.unpack data) /\
  (forall t, FlexAlgoExcludeAdminGroup.unpack data = Return t ->
     TYPE t = 1040 /\ TYPE_STR t = "flex_algo_excl_admin_group"%string) /\
  (forall t, FlexAlgoIncludeAnyAdminGroup.unpack data = Return t ->
     TYPE t = 1041 /\ TYPE_STR t = "flex_algo_incl_any_admin_group"%string) /\
  (forall t, FlexAlgoIncludeAllAdminGroup.unpack data = Return t ->
     TYPE t = 1042 /\ TYPE_STR t = "flex_algo_incl_all_admin_group"%string) /\
  (forall t, FlexAlgoExcludeSRLG.unpack data = Return t ->
     TYPE t = 1044 /\ TYPE_STR t = "flex_algo_excl_srlg"%string).
Proof.
  cbv zeta.
  unfold FlexAlgoExcludeAdminGroup.unpack, FlexAlgoIncludeAnyAdminGroup.unpack,
    FlexAlgoIncludeAllAdminGroup.unpack, FlexAlgoExcludeSRLG.unpack.
  destruct (for_each (py_range 0 (length data) 4) _ []) as [groups|e];
    cbn [bind value];
    repeat match goal with |- _ /\ _ => split end;
    try reflexivity;
    intros t Ht; inversion Ht; split; reflexivity.
Qed.

Lemma u32_list_decoders_agree_witness :
  (t <- FlexAlgoExcludeAdminGroup.unpack [x00;x00;x00;x01; x00;x00;x00;xff] ;;
   Return (value t))
  = (t <- FlexAlgoExcludeSRLG.unpack [x00;x00;x00;x01; x00;x00;x00;xff] ;;
     Return (value t)) /\
  TYPE (mk_tlv 1040 "flex_algo_excl_admin_group" (VList [VInt 1; VInt 255]))
  = 1040.
Proof.
  pose proof (u32_list_decoders_agree [x00;x00;x00;x01; x00;x00;x00;xff])
    as (H1 & H2 & H3 & H4 & _).
  split.
  - exact (eq_trans H1 (eq_trans H2 H3)).
  - exact (proj1 (H4 _ eq_refl)).
Defined.

(** ** FlexAlgoDefinitionFlags *)

(** C9.  On an input of at least 2 bytes the decoder of
    FlexAlgoDefinitionFlags reads the first two bytes as a big-endian
    16-bit number [flags] and returns [{M: flags >> 15}]; that is the top
    bit of the first byte, so the 15 other bits and the bytes after the
    second have no effect.  Bytes [80 00] give [{M: 1}], bytes [00 00]
    give [{M: 0}]. *)
Theorem flags_unpack (data : bytes) :
  ((2 <= length data)%nat ->
   exists b0 b1 rest,
     data = b0 :: b1 :: rest /\
     FlexAlgoDefinitionFlags.unpack data
     = Return (mk_tlv 1043 "flex_algo_defn_flags"
                 (VDict [("M"%string,
                          VInt (Z.shiftr (byte_val b0 * 256 + byte_val b1) 15))])) /\
     Z.shiftr (byte_val b0 * 256 + byte_val b1) 15
     = (if Z.testbit (byte_val b0) 7 then 1 else 0)) /\
  FlexAlgoDefinitionFlags.unpack [x80; x00]
  = Return (mk_tlv 1043 "flex_algo_defn_flags" (VDict [("M"%string, VInt 1)])) /\
  FlexAlgoDefinitionFlags.unpack [x00; x00]
  = Return (mk_tlv 1043 "flex_algo_defn_flags" (VDict [("M"%string, VInt 0)])).
Proof.
  split; [|split; reflexivity].
  intros Hlen. destruct data as [|b0 [|b1 rest]]; simpl in Hlen; try lia.
  exists b0, b1, rest. split; [reflexivity|]. split.
  - unfold FlexAlgoDefinitionFlags.unpack, unpack_H, unpack_uint, be_uint.
    cbn. reflexivity.
  - pose proof (byte_val_range b0) as H0. pose proof (byte_val_range b1) as H1.
    rewrite Z.shiftr_div_pow2 by lia.
    change (2 ^ 15) with 32768.
    assert (Hq : (byte_val b0 * 256 + byte_val b1) / 32768 = byte_val b0 / 128).
    { symmetry. apply (Z.div_unique _ _ _ ((byte_val b0 mod 128) * 256 + byte_val b1)).
      - left.
        pose proof (Z.mod_pos_bound (byte_val b0) 128 ltac:(lia)). lia.
      - pose proof (Z.div_mod (byte_val b0) 128 ltac:(lia)). lia. }
    rewrite Hq.
    assert (Hd : byte_val b0 / 128 = 0 \/ byte_val b0 / 128 = 1).
    { pose proof (Z.div_mod (byte_val b0) 128 ltac:(lia)).
      pose proof (Z.mod_pos_bound (byte_val b0) 128 ltac:(lia)). lia. }
    destruct (Z.testbit (byte_val b0) 7) eqn:Hbit.
    + apply Z.testbit_true in Hbit; [|lia].
      change (2 ^ 7) with 128 in Hbit.
      destruct Hd as [Hd|Hd]; rewrite Hd in *; [discriminate|reflexivity].
    + apply Z.testbit_false in Hbit; [|lia].
      change (2 ^ 7) with 128 in Hbit.
      destruct Hd as [Hd|Hd]; rewrite Hd in *; [reflexivity|discriminate].
Qed.

Lemma flags_unpack_witness :
  (2 <= length [xc1; x23; x45])%nat /\
  FlexAlgoDefinitionFlags.unpack [xc1; x23; x45]
  = Return (mk_tlv 1043 "flex_algo_defn_flags" (VDict [("M"%string, VInt 1)])).
Proof.
  assert (H : (2 <= length [xc1; x23; x45])%nat) by (simpl; lia).
  split; [exact H|].
  destruct (proj1 (flags_unpack [xc1; x23; x45]) H) as (b0 & b1 & rest & Hd & Hu & _).
  injection Hd as <- <- <-. exact Hu.
Defined.

(** ** MultiTopologyIdentifier *)

Lemma mt_loop_step (data : bytes) (mt_id : list pyvalue) :
  data <> [] ->
  MultiTopologyIdentifier.unpack_loop data mt_id
  = v <- unpack_H (firstn 2 data) ;;
    MultiTopologyIdentifier.unpack_loop (skipn 2 data) (mt_id ++ [VInt v]).
Proof.
  intros Hne. destruct data as [|b rest]; [congruence|].
  simp unpack_loop.
  destruct (unpack_H (firstn 2 (b :: rest))); reflexivity.
Qed.

Lemma mt_loop_even (n : nat) : forall (data : bytes) (mt_id : list pyvalue),
  length data = (2 * n)%nat ->
  MultiTopologyIdentifier.unpack_loop data mt_id
  = Return (mt_id ++ map VInt (chunk_values 2 data)).
Proof.
  induction n as [|n IH]; intros data mt_id Hlen.
  - destruct data; [|discriminate]. simp unpack_loop.
    cbn. rewrite app_nil_r. reflexivity.
  - rewrite mt_loop_step by (destruct data; [discriminate|congruence]).
    unfold unpack_H. rewrite unpack_uint_ok by (rewrite length_firstn; lia).
    cbn [bind]. rewrite IH by (rewrite length_skipn; lia).
    rewrite (chunk_values_cons 2 data) by lia.
    rewrite <- app_assoc. reflexivity.
Qed.

Lemma mt_loop_odd (n : nat) : forall (data : bytes) (mt_id : list pyvalue),
  length data = (2 * n + 1)%nat ->
  MultiTopologyIdentifier.unpack_loop data mt_id = Raise struct_error.
Proof.
  induction n as [|n IH]; intros data mt_id Hlen;
    (rewrite mt_loop_step by (destruct data; [discriminate|congruence]));
    unfold unpack_H.
  - rewrite unpack_uint_short by (rewrite length_firstn; lia). reflexivity.
  - rewrite unpack_uint_ok by (rewrite length_firstn; lia).
    cbn [bind]. apply IH. rewrite length_skipn. lia.
Qed.

(** C6.  The decoder of MultiTopologyIdentifier maps the empty buffer to
    the empty list; maps a buffer of [2n] bytes to the list of its [n]
    big-endian 16-bit values as they are, the four reserved top bits
    included (bytes [ff ff] give [[65535]]); and raises [struct.error] on
    a buffer of odd length. *)
Theorem mt_id_unpack (data : bytes) :
  MultiTopologyIdentifier.unpack [] = Return (mk_tlv 263 "mt_id" (VList [])) /\
  MultiTopologyIdentifier.unpack [xff; xff]
    = Return (mk_tlv 263 "mt_id" (VList [VInt 65535])) /\
  ((length data mod 2 = 0)%nat ->
   let vs := chunk_values 2 data in
   MultiTopologyIdentifier.unpack data
     = Return (mk_tlv 263 "mt_id" (VList (map VInt vs))) /\
   length vs = (length data / 2)%nat /\
   forall k, (k < length data / 2)%nat ->
     nth k vs 0 = be_uint (slice data (2 * k) (2 * k + 2))) /\
  ((length data mod 2 = 1)%nat ->
   MultiTopologyIdentifier.unpack data = Raise struct_error).
Proof.
  split; [reflexivity|]. split; [reflexivity|].
  div_mod_facts (length data) 2%nat.
  split; intros Hmod.
  - cbv zeta. split; [|split].
    + unfold MultiTopologyIdentifier.unpack.
      rewrite (mt_loop_even (length data / 2)) by lia. reflexivity.
    + apply length_chunk_values.
    + intros k Hk. apply nth_chunk_values. exact Hk.
  - unfold MultiTopologyIdentifier.unpack.
    rewrite (mt_loop_odd (length data / 2)) by lia. reflexivity.
Qed.

Lemma mt_id_unpack_witness :
  ((length [x00;x02; xf0;x03] mod 2 = 0)%nat /\
   MultiTopologyIdentifier.unpack [x00;x02; xf0;x03]
   = Return (mk_tlv 263 "mt_id" (VList [VInt 2; VInt 61443]))) /\
  ((length [x00;x02; x00] mod 2 = 1)%nat /\
   MultiTopologyIdentifier.unpack [x00;x02; x00] = Raise struct_error).
Proof.
  split.
  - split; [reflexivity|].
    exact (proj1 (proj1 (proj2 (proj2 (mt_id_unpack [x00;x02; xf0;x03]))) eq_refl)).
  - split; [reflexivity|].
    exact (proj2 (proj2 (proj2 (mt_id_unpack [x00;x02; x00]))) eq_refl).
Defined.

(** ** Hexadecimal text: [format] and [b2a_hex] agree *)

Lemma str_app_assoc (s1 s2 s3 : string) :
  ((s1 ++ s2) ++ s3 = s1 ++ (s2 ++ s3))%string.
Proof.
  induction s1 as [|c s1 IH]; simpl; [reflexivity|]. rewrite IH. reflexivity.
Qed.

Lemma str_length_app (s1 s2 : string) :
  String.length (s1 ++ s2) = (String.length s1 + String.length s2)%nat.
Proof.
  induction s1 as [|c s1 IH]; simpl; [reflexivity|]. rewrite IH. reflexivity.
Qed.

Lemma string_of_list_byte_app (l1 l2 : bytes) :
  string_of_list_byte (l1 ++ l2)
  = (string_of_list_byte l1 ++ string_of_list_byte l2)%string.
Proof.
  unfold string_of_list_byte.
  induction l1 as [|b l1 IH]; simpl; [reflexivity|]. rewrite IH. reflexivity.
Qed.

Lemma length_string_of_list_byte (l : bytes) :
  String.length (string_of_list_byte l) = length l.
Proof.
  unfold string_of_list_byte.
  induction l as [|b l IH]; simpl; [reflexivity|]. rewrite IH. reflexivity.
Qed.

Lemma length_b2a_hex (data : bytes) :
  length (b2a_hex data) = (2 * length data)%nat.
Proof.
  unfold b2a_hex. induction data as [|b data IH]; simpl; [reflexivity|].
  simpl in IH. rewrite IH. lia.
Qed.

Lemma b2a_hex_app (l1 l2 : bytes) : b2a_hex (l1 ++ l2) = b2a_hex l1 ++ b2a_hex l2.
Proof. unfold b2a_hex. apply flat_map_app. Qed.

Lemma zeros_snoc (w : nat) (s : string) :
  (zeros w ++ String "0" s)%string = String "0"%char (zeros w ++ s)%string.
Proof.
  induction w as [|w IH]; simpl; [reflexivity|]. rewrite IH. reflexivity.
Qed.

Lemma hex_fixed_zero (w : nat) : forall acc,
  hex_fixed w 0 acc = (zeros w ++ acc)%string.
Proof.
  induction w as [|w IH]; intros acc; [reflexivity|].
  cbn [hex_fixed]. change (0 / 16) with 0. change (0 mod 16) with 0.
  rewrite IH. apply zeros_snoc.
Qed.

Lemma hex_digits_fixed (fuel : nat) : forall (n : Z) (acc : string) (w : nat),
  (1 <= fuel)%nat -> (1 <= w)%nat ->
  0 <= n < 16 ^ Z.of_nat fuel -> n < 16 ^ Z.of_nat w ->
  (zeros (w + String.length acc - String.length (hex_digits fuel n acc))
   ++ hex_digits fuel n acc)%string
  = hex_fixed w n acc.
Proof.
  induction fuel as [|f IH]; intros n acc w Hf Hw Hn Hnw; [lia|].
  destruct w as [|w']; [lia|].
  cbn [hex_digits hex_fixed].
  assert (Hpf : 16 ^ Z.of_nat (S f) = 16 * 16 ^ Z.of_nat f)
    by (rewrite Nat2Z.inj_succ, Z.pow_succ_r by lia; reflexivity).
  assert (Hpw : 16 ^ Z.of_nat (S w') = 16 * 16 ^ Z.of_nat w')
    by (rewrite Nat2Z.inj_succ, Z.pow_succ_r by lia; reflexivity).
  pose proof (Z.div_mod n 16 ltac:(lia)) as Hdm.
  pose proof (Z.mod_pos_bound n 16 ltac:(lia)) as Hmb.
  destruct (Z.eqb_spec (n / 16) 0) as [Hz|Hnz].
  - rewrite Hz, hex_fixed_zero. cbn [String.length].
    replace (S w' + String.length acc - S (String.length acc))%nat with w' by lia.
    reflexivity.
  - assert (Hq : 1 <= n / 16) by lia.
    assert (Hqf : n / 16 < 16 ^ Z.of_nat f) by lia.
    assert (Hqw : n / 16 < 16 ^ Z.of_nat w') by lia.
    assert (1 <= f)%nat by (destruct f; [simpl in Hqf; lia|lia]).
    assert (1 <= w')%nat by (destruct w'; [simpl in Hqw; lia|lia]).
    rewrite <- (IH (n / 16) (String (hex_digit (n mod 16)) acc) w') by lia.
    cbn [String.length].
    replace (S w' + String.length acc)%nat
      with (w' + S (String.length acc))%nat by lia.
    reflexivity.
Qed.

Lemma hex_fixed_be_uint (bs : bytes) : forall acc,
  hex_fixed (2 * length bs) (be_uint bs) acc
  = (string_of_list_byte (b2a_hex bs) ++ acc)%string.
Proof.
  induction bs as [|b bs IH] using rev_ind; intros acc; [reflexivity|].
  rewrite length_app, be_uint_snoc, b2a_hex_app, string_of_list_byte_app.
  replace (2 * (length bs + length [b]))%nat with (S (S (2 * length bs)))
    by (simpl; lia).
  cbn [hex_fixed].
  pose proof (byte_val_range b) as Hb.
  pose proof (Z.div_mod (byte_val b) 16 ltac:(lia)) as Hdm.
  pose proof (Z.mod_pos_bound (byte_val b) 16 ltac:(lia)) as Hmb.
  assert (H1 : (be_uint bs * 256 + byte_val b) mod 16 = byte_val b mod 16).
  { symmetry. apply (Z.mod_unique _ _ (be_uint bs * 16 + byte_val b / 16)); lia. }
  assert (H2 : (be_uint bs * 256 + byte_val b) / 16 = be_uint bs * 16 + byte_val b / 16).
  { symmetry. apply (Z.div_unique _ _ _ (byte_val b mod 16)); lia. }
  assert (H3 : (be_uint bs * 16 + byte_val b / 16) mod 16 = byte_val b / 16).
  { symmetry. apply (Z.mod_unique _ _ (be_uint bs)); lia. }
  assert (H4 : (be_uint bs * 16 + byte_val b / 16) / 16 = be_uint bs).
  { symmetry. apply (Z.div_unique _ _ _ (byte_val b / 16)); lia. }
  rewrite H1, H2, H3, H4, IH, str_app_assoc. f_equal.
  unfold b2a_hex, string_of_list_byte. simpl.
  rewrite !ascii_of_byte_of_ascii. reflexivity.
Qed.

(** ['0x{:0Wx}'.format(n)] with [W] twice the number of bytes that hold
    [n] is the hexadecimal dump of these bytes. *)
Lemma format_0x_b2a_hex (bs : bytes) :
  (1 <= length bs)%nat ->
  format_0x (2 * length bs) (be_uint bs)
  = ("0x" ++ decode_ascii (b2a_hex bs))%string.
Proof.
  intros Hlen. unfold format_0x, hex, decode_ascii. f_equal.
  pose proof (be_uint_range bs) as Hr.
  set (n := be_uint bs) in *.
  pose proof (hex_digits_fixed (S (Z.to_nat (Z.log2 n))) n EmptyString
                (2 * length bs)) as H.
  cbn [String.length] in H. rewrite Nat.add_0_r in H.
  rewrite H.
  - unfold n. rewrite hex_fixed_be_uint.
    generalize (string_of_list_byte (b2a_hex bs)). intros s.
    induction s as [|c s IHs]; simpl; [reflexivity|]. rewrite IHs. reflexivity.
  - lia.
  - lia.
  - split; [lia|].
    destruct (Z.eq_dec n 0) as [->|Hn0]; [reflexivity|].
    pose proof (Z.log2_spec n ltac:(lia)) as [_ Hlt].
    pose proof (Z.log2_nonneg n) as Hl.
    rewrite Nat2Z.inj_succ, Z2Nat.id by lia.
    eapply Z.lt_le_trans; [exact Hlt|].
    apply Z.pow_le_mono_l. lia.
  - replace (Z.of_nat (2 * length bs)) with (2 * Z.of_nat (length bs)) by lia.
    rewrite Z.pow_mul_r by lia. exact (proj2 Hr).
Qed.

(** ** The sub-TLV walk of the two containers *)

Lemma asla_loop_step (reg : registry) (data : bytes) (sub_tlvs : list pyvalue) :
  data <> [] ->
  AppSpecLinkAttr.sub_tlvs_loop reg data sub_tlvs
  = '(t, len) <- unpack_HH (firstn 4 data) ;;
    item <- dispatch reg t (slice data 4 (4 + Z.to_nat len)) ;;
    AppSpecLinkAttr.sub_tlvs_loop reg (skipn (4 + Z.to_nat len) data)
      (sub_tlvs ++ [item]).
Proof.
  intros Hne. destruct data as [|b rest]; [congruence|].
  simp sub_tlvs_loop.
  destruct (unpack_HH (firstn 4 (b :: rest))) as [[t len]|e];
    simp sub_tlvs_loop; [|reflexivity].
  cbn [bind]. unfold dispatch. cbv zeta.
  destruct (reg t) as [cls|]; cbn [bind].
  - destruct (cls _) as [x|e]; cbn [bind]; simp sub_tlvs_loop; reflexivity.
  - simp sub_tlvs_loop. reflexivity.
Qed.

Lemma fad_loop_step (reg : registry) (data : bytes) (sub_tlvs : list pyvalue) :
  data <> [] ->
  FlexAlgorithmDefine.sub_tlvs_loop reg data sub_tlvs
  = '(t, len) <- unpack_HH (firstn 4 data) ;;
    item <- dispatch reg t (slice data 4 (4 + Z.to_nat len)) ;;
    FlexAlgorithmDefine.sub_tlvs_loop reg (skipn (4 + Z.to_nat len) data)
      (sub_tlvs ++ [item]).
Proof.
  intros Hne. destruct data as [|b rest]; [congruence|].
  simp sub_tlvs_loop.
  destruct (unpack_HH (firstn 4 (b :: rest))) as [[t len]|e];
    simp sub_tlvs_loop; [|reflexivity].
  cbn [bind]. unfold dispatch. cbv zeta.
  destruct (reg t) as [cls|]; cbn [bind].
  - destruct (cls _) as [x|e]; cbn [bind]; simp sub_tlvs_loop; reflexivity.
  - simp sub_tlvs_loop. reflexivity.
Qed.

Lemma unpack_HH_header (t1 t2 l1 l2 : byte) (rest : bytes) :
  unpack_HH (firstn 4 (t1 :: t2 :: l1 :: l2 :: rest))
  = Return (be_uint [t1; t2], be_uint [l1; l2]).
Proof. reflexivity. Qed.

Lemma unpack_HH_short (data : bytes) :
  (length data < 4)%nat -> unpack_HH (firstn 4 data) = Raise struct_error.
Proof.
  intros Hlen. unfold unpack_HH.
  assert (H : length (firstn 4 data) <> 4%nat) by (rewrite length_firstn; lia).
  rewrite (proj2 (Nat.eqb_neq _ _) H). reflexivity.
Qed.

Lemma slice_header_value (t1 t2 l1 l2 : byte) (v rest : bytes) (n : nat) :
  length v = n ->
  slice (t1 :: t2 :: l1 :: l2 :: v ++ rest) 4 (4 + n) = v /\
  skipn (4 + n) (t1 :: t2 :: l1 :: l2 :: v ++ rest) = rest.
Proof.
  intros <-. unfold slice.
  replace (4 + length v - 4)%nat with (length v) by lia.
  change (skipn 4 (t1 :: t2 :: l1 :: l2 :: v ++ rest)) with (v ++ rest).
  change (skipn (4 + length v) (t1 :: t2 :: l1 :: l2 :: v ++ rest))
    with (skipn (length v) (v ++ rest)).
  rewrite firstn_app, Nat.sub_diag, firstn_all, skipn_app, Nat.sub_diag, skipn_all.
  simpl. rewrite app_nil_r. split; reflexivity.
Qed.

Lemma slice_header_short (t1 t2 l1 l2 : byte) (v : bytes) (n : nat) :
  (length v < n)%nat ->
  slice (t1 :: t2 :: l1 :: l2 :: v) 4 (4 + n) = v /\
  skipn (4 + n) (t1 :: t2 :: l1 :: l2 :: v) = [].
Proof.
  intros Hlen. unfold slice.
  replace (4 + n - 4)%nat with n by lia.
  change (skipn 4 (t1 :: t2 :: l1 :: l2 :: v)) with v.
  change (skipn (4 + n) (t1 :: t2 :: l1 :: l2 :: v)) with (skipn n v).
  rewrite firstn_all2, skipn_all2 by lia. split; reflexivity.
Qed.

(** A complete sub-TLV whose type is not registered: the walk appends
    the fallback record and goes on with the bytes after it. *)
Lemma asla_unknown_type (reg : registry) (t1 t2 l1 l2 : byte) (v rest : bytes)
    (sub_tlvs : list pyvalue) :
  reg (be_uint [t1; t2]) = None ->
  length v = Z.to_nat (be_uint [l1; l2]) ->
  AppSpecLinkAttr.sub_tlvs_loop reg (t1 :: t2 :: l1 :: l2 :: v ++ rest) sub_tlvs
  = AppSpecLinkAttr.sub_tlvs_loop reg rest
      (sub_tlvs ++
       [VDict [("type"%string, VInt (be_uint [t1; t2]));
               ("value"%string,
                VStr ("b'" ++ string_of_list_byte (b2a_hex v) ++ "'"))]]).
Proof.
  intros Hreg Hlen. rewrite asla_loop_step by discriminate.
  rewrite unpack_HH_header. cbn [bind].
  destruct (slice_header_value t1 t2 l1 l2 v rest _ Hlen) as [-> ->].
  unfold dispatch. rewrite Hreg. reflexivity.
Qed.

Lemma fad_unknown_type (reg : registry) (t1 t2 l1 l2 : byte) (v rest : bytes)
    (sub_tlvs : list pyvalue) :
  reg (be_uint [t1; t2]) = None ->
  length v = Z.to_nat (be_uint [l1; l2]) ->
  FlexAlgorithmDefine.sub_tlvs_loop reg (t1 :: t2 :: l1 :: l2 :: v ++ rest) sub_tlvs
  = FlexAlgorithmDefine.sub_tlvs_loop reg rest
      (sub_tlvs ++
       [VDict [("type"%string, VInt (be_uint [t1; t2]));
               ("value"%string,
                VStr ("b'" ++ string_of_list_byte (b2a_hex v) ++ "'"))]]).
Proof.
  intros Hreg Hlen. rewrite fad_loop_step by discriminate.
  rewrite unpack_HH_header. cbn [bind].
  destruct (slice_header_value t1 t2 l1 l2 v rest _ Hlen) as [-> ->].
  unfold dispatch. rewrite Hreg. reflexivity.
Qed.

(** The masks of AppSpecLinkAttr. *)

Lemma mask_render (len : Z) (mask : bytes) :
  0 < len ->
  (len = 4 \/ len = 8 -> length mask = Z.to_nat len) ->
  (if len =? 4 then
     mask_int <- unpack_I mask ;; Return (VStr (format_0x 8 mask_int))
   else if len =? 8 then
     mask_int <- unpack_Q mask ;; Return (VStr (format_0x 16 mask_int))
   else Return (VStr ("0x" ++ decode_ascii (b2a_hex mask))))
  = Return (mask_value len mask).
Proof.
  intros Hpos Hfull. unfold mask_value.
  rewrite (proj2 (Z.eqb_neq len 0)) by lia.
  destruct (Z.eqb_spec len 4) as [H4|H4].
  - assert (Hl : length mask = 4%nat) by (rewrite Hfull by (left; exact H4); subst; reflexivity).
    unfold unpack_I. rewrite unpack_uint_ok by exact Hl. cbn [bind].
    change 8%nat with (2 * 4)%nat. rewrite <- Hl.
    rewrite format_0x_b2a_hex by lia. reflexivity.
  - destruct (Z.eqb_spec len 8) as [H8|H8]; [|reflexivity].
    assert (Hl : length mask = 8%nat) by (rewrite Hfull by (right; exact H8); subst; reflexivity).
    unfold unpack_Q. rewrite unpack_uint_ok by exact Hl. cbn [bind].
    change 16%nat with (2 * 8)%nat. rewrite <- Hl.
    rewrite format_0x_b2a_hex by lia. reflexivity.
Qed.

Lemma mask_block (len : Z) (data : bytes) (offset : nat) :
  0 <= len ->
  (if len >? 0 then
     mask <-
       (if len =? 4 then
          mask_int <- unpack_I (slice data offset (offset + Z.to_nat len)) ;;
          Return (VStr (format_0x 8 mask_int))
        else if len =? 8 then
          mask_int <- unpack_Q (slice data offset (offset + Z.to_nat len)) ;;
          Return (VStr (format_0x 16 mask_int))
        else
          Return (VStr ("0x" ++ decode_ascii
                    (b2a_hex (slice data offset (offset + Z.to_nat len)))))) ;;
     Return (mask, (offset + Z.to_nat len)%nat)
   else Return (VNone, offset))
  = if mask_short len (slice data offset (offset + Z.to_nat len))
    then Raise struct_error
    else Return (mask_value len (slice data offset (offset + Z.to_nat len)),
                 (offset + Z.to_nat len)%nat).
Proof.
  intros Hlen. unfold mask_short.
  set (mask := slice data offset (offset + Z.to_nat len)).
  destruct (Z.gtb_spec len 0) as [Hgt|Hle].
  - destruct (Nat.eqb_spec (length mask) (Z.to_nat len)) as [Hfull|Hpart].
    + rewrite andb_false_r.
      rewrite mask_render by (try lia; intros _; exact Hfull). reflexivity.
    + rewrite andb_true_r.
      destruct (Z.eqb_spec len 4) as [H4|H4].
      * unfold unpack_I. rewrite unpack_uint_short by (subst len; exact Hpart).
        reflexivity.
      * destruct (Z.eqb_spec len 8) as [H8|H8].
        -- unfold unpack_Q. rewrite unpack_uint_short by (subst len; exact Hpart).
           reflexivity.
        -- cbn [bind orb]. unfold mask_value.
           rewrite (proj2 (Z.eqb_neq len 0)) by lia. reflexivity.
  - assert (H0 : len = 0) by lia. subst len. cbn [Z.eqb orb andb].
    unfold mask_value. cbn [Z.eqb Z.to_nat]. rewrite Nat.add_0_r. reflexivity.
Qed.

(** The decoder, step by step: the two length bytes, the two masks, the
    walk over what follows them. *)
Lemma asla_unpack_steps (reg : registry) (data : bytes) :
  AppSpecLinkAttr.unpack reg data
  = match nth_error data 0, nth_error data 1 with
    | Some b0, Some b1 =>
        let sabm_len := Z.to_nat (byte_val b0) in
        let udabm_len := Z.to_nat (byte_val b1) in
        let sabm_bytes := slice data 4 (4 + sabm_len) in
        let udabm_bytes := slice data (4 + sabm_len) (4 + sabm_len + udabm_len) in
        if mask_short (byte_val b0) sabm_bytes then Raise struct_error
        else if mask_short (byte_val b1) udabm_bytes then Raise struct_error
        else
          sub_tlvs <-
            AppSpecLinkAttr.sub_tlvs_loop reg
              (skipn (4 + sabm_len + udabm_len) data) [] ;;
          Return (mk_tlv 1122 "ASLA" (VDict
            [("sabm"%string,
              VDict [("len"%string, VInt (byte_val b0));
                     ("value"%string, mask_value (byte_val b0) sabm_bytes)]);
             ("udabm"%string,
              VDict [("len"%string, VInt (byte_val b1));
                     ("value"%string, mask_value (byte_val b1) udabm_bytes)]);
             ("sub_tlvs"%string, VList sub_tlvs)]))
    | _, _ => Raise IndexError
    end.
Proof.
  unfold AppSpecLinkAttr.unpack, getitem.
  destruct (nth_error data 0) as [b0|]; [|reflexivity].
  destruct (nth_error data 1) as [b1|]; [|reflexivity].
  cbn [bind]. cbv zeta.
  pose proof (byte_val_range b0) as Hr0. pose proof (byte_val_range b1) as Hr1.
  rewrite (mask_block (byte_val b0) data 4) by lia.
  destruct (mask_short (byte_val b0) _); [reflexivity|]. cbn [bind].
  rewrite (mask_block (byte_val b1) data (4 + Z.to_nat (byte_val b0))) by lia.
  destruct (mask_short (byte_val b1) _); reflexivity.
Qed.

(** C3, as the code has it.  In the sub-TLV walk of AppSpecLinkAttr and
    of FlexAlgorithmDefine, at any iteration (whatever was collected so
    far): a non-empty remainder of fewer than 4 bytes makes the decode
    fail, with the [struct.error] of the header read; a sub-TLV whose
    declared length exceeds the bytes that remain after its header does
    not: its value is the shorter slice that remains, which is handed to
    the registered decoder or to the fallback as it is, and the walk ends
    after it.  The last part states the first case for the decoders
    themselves, when the short remainder follows the fixed fields at
    once. *)
Theorem sub_tlv_walk_truncation (reg : registry) (sub_tlvs : list pyvalue) :
  (forall data, (0 < length data < 4)%nat ->
     AppSpecLinkAttr.sub_tlvs_loop reg data sub_tlvs = Raise struct_error /\
     FlexAlgorithmDefine.sub_tlvs_loop reg data sub_tlvs = Raise struct_error) /\
  (forall t1 t2 l1 l2 v, (length v < Z.to_nat (be_uint [l1; l2]))%nat ->
     AppSpecLinkAttr.sub_tlvs_loop reg (t1 :: t2 :: l1 :: l2 :: v) sub_tlvs
     = (item <- dispatch reg (be_uint [t1; t2]) v ;; Return (sub_tlvs ++ [item])) /\
     FlexAlgorithmDefine.sub_tlvs_loop reg (t1 :: t2 :: l1 :: l2 :: v) sub_tlvs
     = (item <- dispatch reg (be_uint [t1; t2]) v ;; Return (sub_tlvs ++ [item]))) /\
  (forall h0 h1 h2 h3 data, (0 < length data < 4)%nat ->
     AppSpecLinkAttr.unpack reg (x00 :: x00 :: h2 :: h3 :: data)
       = Raise struct_error /\
     FlexAlgorithmDefine.unpack reg (h0 :: h1 :: h2 :: h3 :: data)
       = Raise struct_error).
Proof.
  split; [|split].
  3: { intros h0 h1 h2 h3 data Hlen.
       assert (Hne : data <> [])
         by (destruct data; [simpl in Hlen; lia|discriminate]).
       split.
       - rewrite asla_unpack_steps. cbn [nth_error]. cbv zeta.
         change (byte_val x00) with 0. change (Z.to_nat 0) with O.
         cbn [mask_short Z.eqb orb andb Nat.add skipn].
         rewrite asla_loop_step by exact Hne.
         rewrite unpack_HH_short by lia. reflexivity.
       - unfold FlexAlgorithmDefine.unpack. cbn [firstn unpack_BBBB bind skipn].
         rewrite fad_loop_step by exact Hne.
         rewrite unpack_HH_short by lia. reflexivity. }
  - intros data Hlen.
    assert (Hne : data <> []) by (destruct data; [simpl in Hlen; lia|discriminate]).
    rewrite asla_loop_step, fad_loop_step by exact Hne.
    rewrite unpack_HH_short by lia. split; reflexivity.
  - intros t1 t2 l1 l2 v Hlen.
    rewrite asla_loop_step, fad_loop_step by discriminate.
    rewrite unpack_HH_header. cbn [bind].
    destruct (slice_header_short t1 t2 l1 l2 v _ Hlen) as [-> ->].
    destruct (dispatch reg (be_uint [t1; t2]) v) as [item|e]; cbn [bind].
    + simp sub_tlvs_loop. split; reflexivity.
    + split; reflexivity.
Qed.

Lemma sub_tlv_walk_truncation_witness :
  ((0 < length [x04; x44] < 4)%nat /\
   AppSpecLinkAttr.sub_tlvs_loop leaf_tlvs [x04; x44] [] = Raise struct_error) /\
  ((length [xde; xad] < Z.to_nat (be_uint [x00; x04]))%nat /\
   FlexAlgorithmDefine.sub_tlvs_loop leaf_tlvs [xff; xff; x00; x04; xde; xad] []
   = Return [VDict [("type"%string, VInt 65535);
                    ("value"%string, VStr "b'dead'")]]).
Proof.
  split.
  - assert (H : (0 < length [x04; x44] < 4)%nat) by (simpl; lia).
    split; [exact H|].
    exact (proj1 (proj1 (sub_tlv_walk_truncation leaf_tlvs []) [x04; x44] H)).
  - assert (H : (length [xde; xad] < Z.to_nat (be_uint [x00; x04]))%nat)
      by (vm_compute; lia).
    split; [exact H|].
    exact (proj2 (proj1 (proj2 (sub_tlv_walk_truncation leaf_tlvs []))
                    xff xff x00 x04 [xde; xad] H)).
Defined.

(** C3 as the specification words it does not hold: a sub-TLV that
    declares 4 value bytes where 2 remain is decoded from the 2 bytes, in
    either container, and the decode returns. *)
Lemma sub_tlv_value_overrun_accepted :
  AppSpecLinkAttr.unpack leaf_tlvs
    [x00;x00;x00;x00; xff;xff;x00;x04; xde;xad]
  = Return (mk_tlv 1122 "ASLA" (VDict
      [("sabm"%string, VDict [("len"%string, VInt 0); ("value"%string, VNone)]);
       ("udabm"%string, VDict [("len"%string, VInt 0); ("value"%string, VNone)]);
       ("sub_tlvs"%string,
        VList [VDict [("type"%string, VInt 65535);
                      ("value"%string, VStr "b'dead'")]])])) /\
  FlexAlgorithmDefine.unpack leaf_tlvs
    [x80;x01;x00;x80; x04;x13;x00;x04; x80;x00]
  = Return (mk_tlv 1039 "flex_algo_defn" (VDict
      [("flex_algo"%string, VInt 128); ("metric_type"%string, VInt 1);
       ("calc_type"%string, VInt 0); ("priority"%string, VInt 128);
       ("sub_tlvs"%string,
        VList [VDict [("type"%string, VStr "flex_algo_defn_flags");
                      ("value"%string, VDict [("M"%string, VInt 1)])]])])).
Proof. split; reflexivity. Qed.

(** C4, at the input of the unit test and at one with a sibling after the
    unknown sub-TLV.  The decode returns and the sibling is decoded, but
    the fallback record does not hold the hexadecimal text of the value:
    [str(binascii.b2a_hex(v))] is the text of the bytes literal,
    [b'deadbeef'], prefix and quotes included. *)
Theorem unknown_sub_tlv_fallback_text :
  AppSpecLinkAttr.unpack leaf_tlvs
    [x00;x00;x00;x00; xff;xff;x00;x04; xde;xad;xbe;xef]
  = Return (mk_tlv 1122 "ASLA" (VDict
      [("sabm"%string, VDict [("len"%string, VInt 0); ("value"%string, VNone)]);
       ("udabm"%string, VDict [("len"%string, VInt 0); ("value"%string, VNone)]);
       ("sub_tlvs"%string,
        VList [VDict [("type"%string, VInt 65535);
                      ("value"%string, VStr "b'deadbeef'")]])])) /\
  FlexAlgorithmDefine.unpack leaf_tlvs
    [x80;x01;x00;x80; xff;xff;x00;x04; xde;xad;xbe;xef; x04;x13;x00;x02; x80;x00]
  = Return (mk_tlv 1039 "flex_algo_defn" (VDict
      [("flex_algo"%string, VInt 128); ("metric_type"%string, VInt 1);
       ("calc_type"%string, VInt 0); ("priority"%string, VInt 128);
       ("sub_tlvs"%string,
        VList [VDict [("type"%string, VInt 65535);
                      ("value"%string, VStr "b'deadbeef'")];
               VDict [("type"%string, VStr "flex_algo_defn_flags");
                      ("value"%string, VDict [("M"%string, VInt 1)])]])])) /\
  VStr "b'deadbeef'" <> VStr "deadbeef".
Proof. repeat split; try reflexivity. discriminate. Qed.

(** C2, at inputs the decoder accepts although they are to fail:
    a buffer of 2 or 3 bytes with both lengths 0, and masks declared
    longer than the bytes that follow the header. *)
Theorem asla_short_input_accepted (reg : registry) :
  AppSpecLinkAttr.unpack reg [x00; x00]
  = Return (mk_tlv 1122 "ASLA" (VDict
      [("sabm"%string, VDict [("len"%string, VInt 0); ("value"%string, VNone)]);
       ("udabm"%string, VDict [("len"%string, VInt 0); ("value"%string, VNone)]);
       ("sub_tlvs"%string, VList [])])) /\
  AppSpecLinkAttr.unpack reg [x00; x00; x00]
  = Return (mk_tlv 1122 "ASLA" (VDict
      [("sabm"%string, VDict [("len"%string, VInt 0); ("value"%string, VNone)]);
       ("udabm"%string, VDict [("len"%string, VInt 0); ("value"%string, VNone)]);
       ("sub_tlvs"%string, VList [])])) /\
  AppSpecLinkAttr.unpack reg [x03; x00; x00; x00; xaa]
  = Return (mk_tlv 1122 "ASLA" (VDict
      [("sabm"%string,
        VDict [("len"%string, VInt 3); ("value"%string, VStr "0xaa")]);
       ("udabm"%string, VDict [("len"%string, VInt 0); ("value"%string, VNone)]);
       ("sub_tlvs"%string, VList [])])) /\
  AppSpecLinkAttr.unpack reg [x00; x02; x00; x00; xbb]
  = Return (mk_tlv 1122 "ASLA" (VDict
      [("sabm"%string, VDict [("len"%string, VInt 0); ("value"%string, VNone)]);
       ("udabm"%string,
        VDict [("len"%string, VInt 2); ("value"%string, VStr "0xbb")]);
       ("sub_tlvs"%string, VList [])])).
Proof.
  unfold AppSpecLinkAttr.unpack. cbn. simp sub_tlvs_loop. cbn.
  repeat split; reflexivity.
Qed.

(** ** AppSpecLinkAttr: the decoded mapping *)

(** C7.  With [sabm_len] and [udabm_len] the first two bytes of the
    buffer, the SABM bytes the slice of [sabm_len] bytes at offset 4 and the
    UDABM bytes the slice of [udabm_len] bytes after it: when a mask
    declared 4 or 8 bytes long is there in full and the walk over the bytes
    after the masks returns [sub_tlvs], the decoder returns the mapping
    [{sabm: {len, value}, udabm: {len, value}, sub_tlvs}], and every
    mapping it returns arises so.  A mask value is [None] for length 0 and
    otherwise ["0x"] followed by two hexadecimal digits per mask byte,
    zeros included: 8 digits for length 4, 16 for length 8, the dump of
    the bytes present for another length.  The 4 bytes [00 00 00 00]
    decode to empty masks and no sub-TLV. *)
Theorem asla_unpack_mapping (reg : registry) (data : bytes) :
  (forall b0 b1 sub_tlvs,
     nth_error data 0 = Some b0 ->
     nth_error data 1 = Some b1 ->
     let sabm_len := Z.to_nat (byte_val b0) in
     let udabm_len := Z.to_nat (byte_val b1) in
     let sabm_bytes := slice data 4 (4 + sabm_len) in
     let udabm_bytes := slice data (4 + sabm_len) (4 + sabm_len + udabm_len) in
     (sabm_len = 4%nat \/ sabm_len = 8%nat -> length sabm_bytes = sabm_len) ->
     (udabm_len = 4%nat \/ udabm_len = 8%nat -> length udabm_bytes = udabm_len) ->
     AppSpecLinkAttr.sub_tlvs_loop reg (skipn (4 + sabm_len + udabm_len) data) []
       = Return sub_tlvs ->
     AppSpecLinkAttr.unpack reg data
     = Return (mk_tlv 1122 "ASLA" (VDict
         [("sabm"%string,
           VDict [("len"%string, VInt (byte_val b0));
                  ("value"%string, mask_value (byte_val b0) sabm_bytes)]);
          ("udabm"%string,
           VDict [("len"%string, VInt (byte_val b1));
                  ("value"%string, mask_value (byte_val b1) udabm_bytes)]);
          ("sub_tlvs"%string, VList sub_tlvs)]))) /\
  (forall t,
     AppSpecLinkAttr.unpack reg data = Return t ->
     exists b0 b1 sub_tlvs,
       nth_error data 0 = Some b0 /\
       nth_error data 1 = Some b1 /\
       let sabm_len := Z.to_nat (byte_val b0) in
       let udabm_len := Z.to_nat (byte_val b1) in
       let sabm_bytes := slice data 4 (4 + sabm_len) in
       let udabm_bytes := slice data (4 + sabm_len) (4 + sabm_len + udabm_len) in
       (sabm_len = 4%nat \/ sabm_len = 8%nat -> length sabm_bytes = sabm_len) /\
       (udabm_len = 4%nat \/ udabm_len = 8%nat -> length udabm_bytes = udabm_len) /\
       AppSpecLinkAttr.sub_tlvs_loop reg (skipn (4 + sabm_len + udabm_len) data) []
         = Return sub_tlvs /\
       t = mk_tlv 1122 "ASLA" (VDict
         [("sabm"%string,
           VDict [("len"%string, VInt (byte_val b0));
                  ("value"%string, mask_value (byte_val b0) sabm_bytes)]);
          ("udabm"%string,
           VDict [("len"%string, VInt (byte_val b1));
                  ("value"%string, mask_value (byte_val b1) udabm_bytes)]);
          ("sub_tlvs"%string, VList sub_tlvs)])) /\
  (forall len mask,
     mask_value 0 mask = VNone /\
     (len <> 0 ->
      exists digits,
        mask_value len mask = VStr ("0x" ++ digits) /\
        digits = decode_ascii (b2a_hex mask) /\
        String.length digits = (2 * length mask)%nat)) /\
  AppSpecLinkAttr.unpack reg [x00; x00; x00; x00]
  = Return (mk_tlv 1122 "ASLA" (VDict
      [("sabm"%string, VDict [("len"%string, VInt 0); ("value"%string, VNone)]);
       ("udabm"%string, VDict [("len"%string, VInt 0); ("value"%string, VNone)]);
       ("sub_tlvs"%string, VList [])])).
Proof.
  assert (Hshort : forall (b : byte) (mask : bytes),
            mask_short (byte_val b) mask = false <->
            (Z.to_nat (byte_val b) = 4%nat \/ Z.to_nat (byte_val b) = 8%nat ->
             length mask = Z.to_nat (byte_val b))).
  { intros b mask. pose proof (byte_val_range b) as Hr. unfold mask_short.
    rewrite andb_false_iff, orb_false_iff, negb_false_iff, !Z.eqb_neq, Nat.eqb_eq.
    split.
    - intros [[H4 H8]|Hl] Hc; [lia|exact Hl].
    - intros H.
      destruct (Z.eq_dec (byte_val b) 4) as [E|E]; [right; apply H; lia|].
      destruct (Z.eq_dec (byte_val b) 8) as [E'|E']; [right; apply H; lia|].
      left. split; assumption. }
  split; [|split; [|split]].
  - intros b0 b1 sub_tlvs Hb0 Hb1 sabm_len udabm_len sabm_bytes udabm_bytes
      Hsabm Hudabm Hloop.
    subst sabm_len udabm_len sabm_bytes udabm_bytes.
    rewrite asla_unpack_steps, Hb0, Hb1. cbv zeta.
    rewrite (proj2 (Hshort b0 _) Hsabm), (proj2 (Hshort b1 _) Hudabm).
    rewrite Hloop. reflexivity.
  - intros t Ht. rewrite asla_unpack_steps in Ht.
    destruct (nth_error data 0) as [b0|]; [|discriminate Ht].
    destruct (nth_error data 1) as [b1|]; [|discriminate Ht].
    cbv zeta in Ht.
    destruct (mask_short (byte_val b0) _) eqn:Hs0; [discriminate Ht|].
    destruct (mask_short (byte_val b1) _) eqn:Hs1; [discriminate Ht|].
    destruct (AppSpecLinkAttr.sub_tlvs_loop reg _ []) as [sub_tlvs|e] eqn:Hloop;
      [|discriminate Ht].
    cbn [bind] in Ht. injection Ht as <-.
    exists b0, b1, sub_tlvs. cbv zeta.
    split; [reflexivity|]. split; [reflexivity|].
    split; [apply (proj1 (Hshort b0 _) Hs0)|].
    split; [apply (proj1 (Hshort b1 _) Hs1)|].
    split; [exact Hloop|reflexivity].
  - intros len mask. split; [reflexivity|]. intros Hlen.
    exists (decode_ascii (b2a_hex mask)). split; [|split].
    + unfold mask_value. rewrite (proj2 (Z.eqb_neq len 0)) by exact Hlen. reflexivity.
    + reflexivity.
    + unfold decode_ascii. rewrite length_string_of_list_byte. apply length_b2a_hex.
  - unfold AppSpecLinkAttr.unpack. cbn. simp sub_tlvs_loop. reflexivity.
Qed.

Lemma asla_unpack_mapping_witness :
  nth_error [x08;x04;x00;x00; x00;x00;x00;x00;x00;x00;x00;x01; xff;xff;xff;xff] 0
    = Some x08 /\
  nth_error [x08;x04;x00;x00; x00;x00;x00;x00;x00;x00;x00;x01; xff;xff;xff;xff] 1
    = Some x04 /\
  length (slice [x08;x04;x00;x00; x00;x00;x00;x00;x00;x00;x00;x01; xff;xff;xff;xff]
            4 12) = 8%nat /\
  length (slice [x08;x04;x00;x00; x00;x00;x00;x00;x00;x00;x00;x01; xff;xff;xff;xff]
            12 16) = 4%nat /\
  AppSpecLinkAttr.sub_tlvs_loop leaf_tlvs
    (skipn 16 [x08;x04;x00;x00; x00;x00;x00;x00;x00;x00;x00;x01; xff;xff;xff;xff]) []
    = Return [] /\
  AppSpecLinkAttr.unpack leaf_tlvs
    [x08;x04;x00;x00; x00;x00;x00;x00;x00;x00;x00;x01; xff;xff;xff;xff]
  = Return (mk_tlv 1122 "ASLA" (VDict
      [("sabm"%string,
        VDict [("len"%string, VInt 8);
               ("value"%string, VStr "0x0000000000000001")]);
       ("udabm"%string,
        VDict [("len"%string, VInt 4); ("value"%string, VStr "0xffffffff")]);
       ("sub_tlvs"%string, VList [])])).
Proof.
  repeat (split; [reflexivity|]).
  exact (proj1 (asla_unpack_mapping leaf_tlvs
           [x08;x04;x00;x00; x00;x00;x00;x00;x00;x00;x00;x01; xff;xff;xff;xff])
         x08 x04 [] eq_refl eq_refl (fun _ => eq_refl) (fun _ => eq_refl) eq_refl).
Defined.

(** ** AS_PATH: packing and unpacking numbers *)

Lemma byte_val_byte_of_Z (z : Z) : 0 <= z < 256 -> byte_val (byte_of_Z z) = z.
Proof.
  intros Hz. unfold byte_val, byte_of_Z.
  destruct (Byte.of_N (Z.to_N z)) as [b|] eqn:Hb.
  - apply Byte.to_of_N in Hb. rewrite Hb. lia.
  - apply Byte.of_N_None_iff in Hb. lia.
Qed.

Lemma length_be_bytes (size : nat) : forall n, length (be_bytes size n) = size.
Proof.
  induction size as [|k IH]; intros n; [reflexivity|].
  cbn [be_bytes]. rewrite length_app, IH. simpl. lia.
Qed.

Lemma be_uint_be_bytes (size : nat) : forall n,
  0 <= n < 256 ^ Z.of_nat size -> be_uint (be_bytes size n) = n.
Proof.
  induction size as [|k IH]; intros n Hn.
  - simpl in Hn. assert (n = 0) by lia. subst. reflexivity.
  - cbn [be_bytes]. rewrite be_uint_snoc.
    rewrite Nat2Z.inj_succ, Z.pow_succ_r in Hn by lia.
    pose proof (Z.div_mod n 256 ltac:(lia)) as Hdm.
    pose proof (Z.mod_pos_bound n 256 ltac:(lia)) as Hmb.
    rewrite IH by lia. rewrite byte_val_byte_of_Z by lia. lia.
Qed.

Lemma pack_uint_ok (size : nat) (n : Z) :
  0 <= n < 256 ^ Z.of_nat size -> pack_uint size n = Return (be_bytes size n).
Proof.
  intros Hn. unfold pack_uint.
  rewrite (proj2 (Z.leb_le 0 n)), (proj2 (Z.ltb_lt n _)) by lia. reflexivity.
Qed.

Lemma be_bytes_1 (n : Z) : 0 <= n < 256 -> be_bytes 1 n = [byte_of_Z n].
Proof.
  intros Hn. cbn [be_bytes app]. rewrite Z.mod_small by lia. reflexivity.
Qed.

(** ** AS_PATH: one segment *)

Lemma parse_loop_step (asn4 : bool) (t c : byte) (body : bytes)
    (aspath : list ASPath.segment) :
  ASPath.parse_loop asn4 (t :: c :: body) aspath
  = if ASPath.valid_segment_type (byte_val t) then
      if Nat.ltb (length body) (Z.to_nat (byte_val c) * ASPath.asn_width asn4)
      then Raise (UpdateMessageError ASPath.ERR_MSG_UPDATE_ATTR_LEN)
      else ASPath.parse_loop asn4
             (skipn (Z.to_nat (byte_val c) * ASPath.asn_width asn4) body)
             (aspath ++
              [(byte_val t,
                ASPath.read_asns (Z.to_nat (byte_val c)) (ASPath.asn_width asn4) body)])
    else Raise (UpdateMessageError ASPath.ERR_MSG_UPDATE_MALFORMED_ASPATH).
Proof.
  simp parse_loop.
  destruct (ASPath.valid_segment_type (byte_val t)); simp parse_loop; [|reflexivity].
  destruct (Nat.ltb _ _); simp parse_loop; reflexivity.
Qed.

Lemma for_each_pack_asns (width : nat) (asns : list Z) : forall acc,
  Forall (fun asn => 0 <= asn < 256 ^ Z.of_nat width) asns ->
  for_each asns
    (fun asn as_seg_raw => a <- pack_uint width asn ;; Return (as_seg_raw ++ a))
    acc
  = Return (acc ++ flat_map (be_bytes width) asns).
Proof.
  induction asns as [|asn asns IH]; intros acc Hall.
  - simpl. rewrite app_nil_r. reflexivity.
  - inversion Hall as [|? ? Hasn Hrest]; subst.
    cbn [for_each flat_map]. rewrite pack_uint_ok by exact Hasn.
    cbn [bind]. rewrite IH by exact Hrest. rewrite app_assoc. reflexivity.
Qed.

Lemma length_flat_map_be_bytes (width : nat) (asns : list Z) :
  length (flat_map (be_bytes width) asns) = (length asns * width)%nat.
Proof.
  induction asns as [|asn asns IH]; [reflexivity|].
  cbn [flat_map]. rewrite length_app, length_be_bytes, IH. simpl. lia.
Qed.

Lemma read_asns_flat_map (width : nat) (asns : list Z) (rest : bytes) :
  Forall (fun asn => 0 <= asn < 256 ^ Z.of_nat width) asns ->
  ASPath.read_asns (length asns) width (flat_map (be_bytes width) asns ++ rest)
  = asns.
Proof.
  induction asns as [|asn asns IH]; intros Hall; [reflexivity|].
  inversion Hall as [|? ? Hasn Hrest]; subst.
  cbn [length ASPath.read_asns flat_map]. rewrite <- app_assoc.
  rewrite firstn_app, skipn_app, length_be_bytes, Nat.sub_diag.
  rewrite firstn_all2, skipn_all2 by (rewrite length_be_bytes; lia).
  simpl firstn. simpl skipn. rewrite app_nil_r. cbn [app].
  rewrite be_uint_be_bytes by exact Hasn. rewrite IH by exact Hrest. reflexivity.
Qed.

Lemma valid_segment_type_range (t : Z) :
  ASPath.valid_segment_type t = true <-> 1 <= t <= 4.
Proof.
  unfold ASPath.valid_segment_type, ASPath.AS_SET, ASPath.AS_SEQUENCE,
    ASPath.AS_CONFED_SEQUENCE, ASPath.AS_CONFED_SET.
  rewrite !orb_true_iff, !Z.eqb_eq. lia.
Qed.

Lemma parse_loop_segment (asn4 : bool) (seg : ASPath.segment) (rest : bytes)
    (aspath : list ASPath.segment) :
  well_formed_segment asn4 seg ->
  ASPath.parse_loop asn4 (segment_octets asn4 seg ++ rest) aspath
  = ASPath.parse_loop asn4 rest (aspath ++ [seg]).
Proof.
  destruct seg as [t asns]. intros (Ht & Hcount & Hasns). cbn [fst snd] in *.
  pose proof (proj1 (valid_segment_type_range t) Ht) as Htr.
  unfold segment_octets. cbn [fst snd].
  rewrite !be_bytes_1 by lia. cbn [app].
  rewrite parse_loop_step.
  rewrite !byte_val_byte_of_Z by lia. rewrite Ht, Nat2Z.id.
  assert (Hlen : length (flat_map (be_bytes (ASPath.asn_width asn4)) asns ++ rest)
                 = (length asns * ASPath.asn_width asn4 + length rest)%nat)
    by (rewrite length_app, length_flat_map_be_bytes; reflexivity).
  rewrite (proj2 (Nat.ltb_ge _ _)) by lia.
  rewrite read_asns_flat_map by exact Hasns.
  rewrite skipn_app, length_flat_map_be_bytes, Nat.sub_diag.
  rewrite skipn_all2 by (rewrite length_flat_map_be_bytes; lia).
  reflexivity.
Qed.

Lemma parse_loop_segments (asn4 : bool) (path : list ASPath.segment) :
  forall aspath,
  Forall (well_formed_segment asn4) path ->
  ASPath.parse_loop asn4 (flat_map (segment_octets asn4) path) aspath
  = Return (aspath ++ path).
Proof.
  induction path as [|seg path IH]; intros aspath Hall.
  - simpl. simp parse_loop. rewrite app_nil_r. reflexivity.
  - inversion Hall as [|? ? Hseg Hrest]; subst.
    cbn [flat_map]. rewrite parse_loop_segment by exact Hseg.
    rewrite IH by exact Hrest. rewrite <- app_assoc. reflexivity.
Qed.

Lemma construct_value_acc (asn4 : bool) (path : list ASPath.segment) :
  forall acc,
  Forall (well_formed_segment asn4) path ->
  for_each path
    (fun seg as_path_raw =>
       let '(seg_type, as_path_list) := seg in
       as_seg_raw <-
         for_each as_path_list
           (fun asn as_seg_raw =>
              a <- pack_uint (ASPath.asn_width asn4) asn ;;
              Return (as_seg_raw ++ a))
           [] ;;
       t <- pack_uint 1 seg_type ;;
       n <- pack_uint 1 (Z.of_nat (length as_path_list)) ;;
       Return (as_path_raw ++ t ++ n ++ as_seg_raw))
    acc
  = Return (acc ++ flat_map (segment_octets asn4) path).
Proof.
  induction path as [|seg path IH]; intros acc Hall.
  - simpl. rewrite app_nil_r. reflexivity.
  - inversion Hall as [|? ? Hseg Hrest]; subst.
    destruct seg as [t asns]. destruct Hseg as (Ht & Hcount & Hasns).
    cbn [fst snd] in *.
    pose proof (proj1 (valid_segment_type_range t) Ht) as Htr.
    cbn [for_each]. rewrite for_each_pack_asns by exact Hasns.
    cbn [bind app]. rewrite !pack_uint_ok by (simpl; lia). cbn [bind].
    rewrite IH by exact Hrest.
    cbn [flat_map]. unfold segment_octets at 2. cbn [fst snd].
    rewrite <- !app_assoc. reflexivity.
Qed.

Lemma construct_value_segments (asn4 : bool) (path : list ASPath.segment) :
  Forall (well_formed_segment asn4) path ->
  ASPath.construct_value path asn4 = Return (flat_map (segment_octets asn4) path).
Proof.
  intros Hall. unfold ASPath.construct_value.
  rewrite construct_value_acc by exact Hall. reflexivity.
Qed.

Lemma length_segments (asn4 : bool) (path : list ASPath.segment) :
  Forall (well_formed_segment asn4) path ->
  length (flat_map (segment_octets asn4) path) = encoded_size asn4 path.
Proof.
  unfold encoded_size, list_sum.
  induction path as [|seg path IH]; intros Hall; [reflexivity|].
  inversion Hall as [|? ? Hseg Hrest]; subst.
  cbn [flat_map map]. rewrite length_app, IH by exact Hrest.
  unfold segment_octets.
  rewrite !length_app, !length_be_bytes, length_flat_map_be_bytes.
  rewrite (Nat.mul_comm (length (snd seg))).
  unfold list_sum. cbn [fold_right]. lia.
Qed.

Lemma well_formed_spec (asn4 : bool) (path : list ASPath.segment) :
  well_formed asn4 path = true <-> Forall (well_formed_segment asn4) path.
Proof.
  unfold well_formed. rewrite forallb_forall, Forall_forall.
  split; intros H seg Hin; specialize (H seg Hin).
  - rewrite !andb_true_iff in H. destruct H as [[Ht Hc] Ha].
    split; [exact Ht|]. split; [apply Nat.leb_le; exact Hc|].
    apply Forall_forall. intros asn Hasn.
    rewrite forallb_forall in Ha. specialize (Ha asn Hasn).
    rewrite andb_true_iff, Z.leb_le, Z.ltb_lt in Ha. exact Ha.
  - destruct H as (Ht & Hc & Ha). rewrite !andb_true_iff.
    split; [split; [exact Ht|apply Nat.leb_le; exact Hc]|].
    apply forallb_forall. intros asn Hasn.
    rewrite Forall_forall in Ha. specialize (Ha asn Hasn).
    rewrite andb_true_iff, Z.leb_le, Z.ltb_lt. exact Ha.
Qed.

Lemma parse_loop_prefix (asn4 : bool) (pre : list ASPath.segment) (rest : bytes) :
  forall aspath,
  Forall (well_formed_segment asn4) pre ->
  ASPath.parse_loop asn4 (flat_map (segment_octets asn4) pre ++ rest) aspath
  = ASPath.parse_loop asn4 rest (aspath ++ pre).
Proof.
  induction pre as [|seg pre IH]; intros aspath Hall.
  - simpl. rewrite app_nil_r. reflexivity.
  - inversion Hall as [|? ? Hseg Hrest]; subst.
    cbn [flat_map]. rewrite <- app_assoc.
    rewrite parse_loop_segment by exact Hseg.
    rewrite IH by exact Hrest. rewrite <- app_assoc. reflexivity.
Qed.

Lemma attribute_header_value (len : nat) (raw : bytes) :
  Z.of_nat len <= 65535 ->
  exists header,
    ASPath.attribute_header len = Return header /\
    (length header = 3 \/ length header = 4)%nat /\
    attribute_value (header ++ raw) = raw.
Proof.
  intros Hlen. unfold ASPath.attribute_header.
  destruct (Nat.leb_spec len 255) as [Hle|Hgt].
  - rewrite (pack_uint_ok 1 (Z.of_nat len)) by (simpl; lia).
    eexists. split; [reflexivity|]. split; [left|]; reflexivity.
  - rewrite (pack_uint_ok 2 (Z.of_nat len)) by (simpl; lia).
    eexists. split; [reflexivity|]. split; [right|]; reflexivity.
Qed.

(** ** AS_PATH: the claims *)

(** C1, as the codec has it.  For a path whose segments have a type
    among 1..4, at most 255 ASNs, each ASN within the negotiated width, and
    whose octets number at most 65535, [construct] returns the attribute
    header (flags, type code, length) followed by the octets of the
    segments, and [parse] under the same flag, given the octets after the
    header, returns the path, segments and ASNs in order.  The path
    [[(2,[3257,31027,34848,21465])]] with 2-byte ASNs is encoded as
    [40 02 0a 02 04 0c b9 79 33 88 20 53 d9]. *)
Theorem as_path_round_trip (path : list ASPath.segment) (asn4 : bool) :
  (well_formed asn4 path = true ->
   Z.of_nat (encoded_size asn4 path) <= 65535 ->
   exists header,
     ASPath.attribute_header (encoded_size asn4 path) = Return header /\
     (length header = 3 \/ length header = 4)%nat /\
     ASPath.construct path asn4
       = Return (header ++ flat_map (segment_octets asn4) path) /\
     ASPath.parse (attribute_value (header ++ flat_map (segment_octets asn4) path))
       asn4 = Return path) /\
  ASPath.construct [(2, [3257; 31027; 34848; 21465])] false
  = Return [x40; x02; x0a; x02; x04; x0c; xb9; x79; x33; x88; x20; x53; xd9].
Proof.
  split; [|reflexivity].
  intros Hwf Hsize. apply well_formed_spec in Hwf.
  pose proof (length_segments asn4 path Hwf) as Hlen.
  destruct (attribute_header_value (encoded_size asn4 path)
              (flat_map (segment_octets asn4) path) Hsize)
    as (header & Hh & Hhl & Hv).
  exists header. split; [exact Hh|]. split; [exact Hhl|]. split.
  - unfold ASPath.construct. rewrite construct_value_segments by exact Hwf.
    cbn [bind]. rewrite Hlen, Hh. reflexivity.
  - rewrite Hv. unfold ASPath.parse.
    rewrite <- (app_nil_r (flat_map (segment_octets asn4) path)).
    rewrite parse_loop_prefix by exact Hwf.
    simp parse_loop. reflexivity.
Qed.

Lemma as_path_round_trip_witness :
  well_formed true [(4, [1001; 70000]); (3, [])] = true /\
  Z.of_nat (encoded_size true [(4, [1001; 70000]); (3, [])]) <= 65535 /\
  exists header,
    ASPath.construct [(4, [1001; 70000]); (3, [])] true
    = Return (header
              ++ [x04; x02; x00;x00;x03;xe9; x00;x01;x11;x70; x03; x00]) /\
    ASPath.parse
      (attribute_value
         (header ++ [x04; x02; x00;x00;x03;xe9; x00;x01;x11;x70; x03; x00]))
      true
    = Return [(4, [1001; 70000]); (3, [])].
Proof.
  assert (Hwf : well_formed true [(4, [1001; 70000]); (3, [])] = true)
    by reflexivity.
  assert (Hsz : Z.of_nat (encoded_size true [(4, [1001; 70000]); (3, [])]) <= 65535)
    by (vm_compute; discriminate).
  split; [exact Hwf|]. split; [exact Hsz|].
  destruct (proj1 (as_path_round_trip [(4, [1001; 70000]); (3, [])] true) Hwf Hsz)
    as (header & _ & _ & Hc & Hp).
  exists header. split; [exact Hc|exact Hp].
Defined.

(** C1 as the specification words it does not hold: the octets
    [construct] produces begin with the attribute header, whose first
    byte [0x40] is no segment type, so [parse] applied to them raises the
    Malformed AS_PATH error instead of returning the path. *)
Lemma as_path_parse_of_construct_fails :
  (octets <- ASPath.construct [(2, [3257; 31027; 34848; 21465])] false ;;
   ASPath.parse octets false)
  = Raise (UpdateMessageError 11) /\
  (octets <- ASPath.construct [(2, [3257; 31027; 34848; 21465])] true ;;
   ASPath.parse octets true)
  = Raise (UpdateMessageError 11).
Proof. split; reflexivity. Qed.

(** C8, as the codec has it.  At any point of the decode, that is after
    any sequence of well-formed segments, [parse] raises the
    update-message error with the Attribute Length Error sub-code (5)
    when a single byte remains, less than the 2-byte segment header, and
    when the header has a type among 1, 2, 3, 4 and counts more 2-byte
    (or, with [asn4], 4-byte) ASNs than the bytes that remain can hold; it
    raises it with the Malformed AS_PATH sub-code (11) when a whole header
    remains and its segment-type byte is not among 1, 2, 3, 4; and it
    returns the empty list for the empty buffer. *)
Theorem as_path_parse_errors (asn4 : bool) (pre : list ASPath.segment)
    (rest : bytes) :
  well_formed asn4 pre = true ->
  (length rest = 1%nat ->
   ASPath.parse (flat_map (segment_octets asn4) pre ++ rest) asn4
   = Raise (UpdateMessageError 5)) /\
  (forall t c body,
     rest = t :: c :: body ->
     ~ (1 <= byte_val t <= 4) ->
     ASPath.parse (flat_map (segment_octets asn4) pre ++ rest) asn4
     = Raise (UpdateMessageError 11)) /\
  (forall t c body,
     rest = t :: c :: body ->
     1 <= byte_val t <= 4 ->
     (length body < Z.to_nat (byte_val c) * (if asn4 then 4 else 2))%nat ->
     ASPath.parse (flat_map (segment_octets asn4) pre ++ rest) asn4
     = Raise (UpdateMessageError 5)) /\
  ASPath.parse [] asn4 = Return [] /\
  ASPath.parse [x05; x04; x0c; xb9; x79; x33; x88; x20; x53; xd9] false
  = Raise (UpdateMessageError 11).
Proof.
  intros Hwf. apply well_formed_spec in Hwf.
  unfold ASPath.parse. rewrite parse_loop_prefix by exact Hwf.
  cbn [app].
  split; [|split; [|split; [|split]]].
  - intros Hlen. destruct rest as [|b [|? ?]]; try discriminate.
    simp parse_loop. reflexivity.
  - intros t c body -> Ht. rewrite parse_loop_step.
    destruct (ASPath.valid_segment_type (byte_val t)) eqn:Hv; [|reflexivity].
    apply valid_segment_type_range in Hv. contradiction.
  - intros t c body -> Ht Hshort. rewrite parse_loop_step.
    rewrite (proj2 (valid_segment_type_range _) Ht).
    assert (Hw : ASPath.asn_width asn4 = if asn4 then 4%nat else 2%nat)
      by (destruct asn4; reflexivity).
    rewrite Hw. rewrite (proj2 (Nat.ltb_lt _ _) Hshort). reflexivity.
  - simp parse_loop. reflexivity.
  - reflexivity.
Qed.

Lemma as_path_parse_errors_witness :
  well_formed false [(2, [1001])] = true /\
  ASPath.parse [x02; x01; x03; xe9; x02] false = Raise (UpdateMessageError 5) /\
  ASPath.parse [x02; x01; x03; xe9; x05; x01] false
  = Raise (UpdateMessageError 11) /\
  ASPath.parse [x02; x01; x03; xe9; x02; x01; x00] false
  = Raise (UpdateMessageError 5).
Proof.
  assert (Hwf : well_formed false [(2, [1001])] = true) by reflexivity.
  split; [exact Hwf|]. split; [|split].
  - exact (proj1 (as_path_parse_errors false [(2, [1001])] [x02] Hwf) eq_refl).
  - refine (proj1 (proj2 (as_path_parse_errors false [(2, [1001])] [x05; x01] Hwf))
              x05 x01 [] eq_refl _).
    vm_compute. intros [_ H]. apply H. reflexivity.
  - refine (proj1 (proj2 (proj2
              (as_path_parse_errors false [(2, [1001])] [x02; x01; x00] Hwf)))
              x02 x01 [x00] eq_refl _ _).
    + vm_compute. split; discriminate.
    + vm_compute. lia.
Defined.

(** C8 as the specification words it does not hold where its cases
    overlap: the header is read before the type is checked, and the type
    before the ASNs are read.  The bytes [05 01] count one ASN and hold
    none, yet the error is Malformed AS_PATH, not Attribute Length; the
    single byte [05] is no valid segment type, yet the error is Attribute
    Length, not Malformed AS_PATH. *)
Lemma as_path_error_cases_overlap :
  ASPath.parse [x05; x01] false = Raise (UpdateMessageError 11) /\
  ASPath.parse [x05; x01] true = Raise (UpdateMessageError 11) /\
  ASPath.parse [x05] false = Raise (UpdateMessageError 5) /\
  UpdateMessageError 11 <> UpdateMessageError 5.
Proof. repeat split; try reflexivity. discriminate. Qed.

(** * Further properties of the decoders *)

(** ** The sub-TLV walk *)

Lemma be_bytes_2 (n : Z) :
  be_bytes 2 n = [byte_of_Z (n / 256 mod 256); byte_of_Z (n mod 256)].
Proof. reflexivity. Qed.

Lemma envelope_ok_spec (tv : Z * bytes) :
  envelope_ok tv = true <->
  0 <= fst tv < 65536 /\ Z.of_nat (length (snd tv)) < 65536.
Proof.
  unfold envelope_ok. rewrite !andb_true_iff, Z.leb_le, !Z.ltb_lt. tauto.
Qed.

Lemma envelope_header (t : Z) (v rest : bytes) :
  0 <= t < 65536 -> Z.of_nat (length v) < 65536 ->
  exists t1 t2 l1 l2,
    envelope t v ++ rest = t1 :: t2 :: l1 :: l2 :: v ++ rest /\
    be_uint [t1; t2] = t /\
    Z.to_nat (be_uint [l1; l2]) = length v.
Proof.
  intros Ht Hv. unfold envelope. rewrite !be_bytes_2.
  do 4 eexists. split; [reflexivity|]. split.
  - rewrite <- be_bytes_2. apply be_uint_be_bytes. simpl. lia.
  - rewrite <- be_bytes_2, be_uint_be_bytes by (simpl; lia). apply Nat2Z.id.
Qed.

Lemma asla_walk_envelope (reg : registry) (t : Z) (v rest : bytes)
    (sub_tlvs : list pyvalue) :
  0 <= t < 65536 -> Z.of_nat (length v) < 65536 ->
  AppSpecLinkAttr.sub_tlvs_loop reg (envelope t v ++ rest) sub_tlvs
  = item <- dispatch reg t v ;;
    AppSpecLinkAttr.sub_tlvs_loop reg rest (sub_tlvs ++ [item]).
Proof.
  intros Ht Hv.
  destruct (envelope_header t v rest Ht Hv) as (t1 & t2 & l1 & l2 & -> & Htype & Hlen).
  rewrite asla_loop_step by discriminate.
  rewrite unpack_HH_header. cbn [bind].
  destruct (slice_header_value t1 t2 l1 l2 v rest _ (eq_sym Hlen)) as [-> ->].
  rewrite Htype. reflexivity.
Qed.

Lemma fad_walk_envelope (reg : registry) (t : Z) (v rest : bytes)
    (sub_tlvs : list pyvalue) :
  0 <= t < 65536 -> Z.of_nat (length v) < 65536 ->
  FlexAlgorithmDefine.sub_tlvs_loop reg (envelope t v ++ rest) sub_tlvs
  = item <- dispatch reg t v ;;
    FlexAlgorithmDefine.sub_tlvs_loop reg rest (sub_tlvs ++ [item]).
Proof.
  intros Ht Hv.
  destruct (envelope_header t v rest Ht Hv) as (t1 & t2 & l1 & l2 & -> & Htype & Hlen).
  rewrite fad_loop_step by discriminate.
  rewrite unpack_HH_header. cbn [bind].
  destruct (slice_header_value t1 t2 l1 l2 v rest _ (eq_sym Hlen)) as [-> ->].
  rewrite Htype. reflexivity.
Qed.

Lemma walks_agree_bounded (reg : registry) (n : nat) :
  forall (data : bytes) (sub_tlvs : list pyvalue),
  (length data <= n)%nat ->
  AppSpecLinkAttr.sub_tlvs_loop reg data sub_tlvs
  = FlexAlgorithmDefine.sub_tlvs_loop reg data sub_tlvs.
Proof.
  induction n as [|n IH]; intros data sub_tlvs Hlen.
  - destruct data; [|simpl in Hlen; lia]. simp sub_tlvs_loop. reflexivity.
  - destruct data as [|b rest]; [simp sub_tlvs_loop; reflexivity|].
    rewrite asla_loop_step, fad_loop_step by discriminate.
    destruct (unpack_HH (firstn 4 (b :: rest))) as [[t len]|e]; [|reflexivity].
    cbn [bind].
    destruct (dispatch reg t _) as [item|e]; [|reflexivity].
    cbn [bind]. apply IH.
    rewrite length_skipn. simpl in Hlen. simpl. lia.
Qed.

(** X1.  The sub-TLV walk written out in AppSpecLinkAttr and the one
    written out in FlexAlgorithmDefine are the same function: for every
    registry, buffer and list collected so far they return the same list
    or raise the same exception. *)
Theorem sub_tlv_walks_agree (reg : registry) (data : bytes)
    (sub_tlvs : list pyvalue) :
  AppSpecLinkAttr.sub_tlvs_loop reg data sub_tlvs
  = FlexAlgorithmDefine.sub_tlvs_loop reg data sub_tlvs.
Proof. apply (walks_agree_bounded reg (length data)). lia. Qed.

Lemma asla_walk_envelopes (reg : registry) (tlvs : list (Z * bytes)) :
  forall sub_tlvs,
  forallb envelope_ok tlvs = true ->
  AppSpecLinkAttr.sub_tlvs_loop reg (envelopes tlvs) sub_tlvs
  = for_each tlvs
      (fun tv acc => item <- dispatch reg (fst tv) (snd tv) ;; Return (acc ++ [item]))
      sub_tlvs.
Proof.
  induction tlvs as [|[t v] tlvs IH]; intros sub_tlvs Hok.
  - unfold envelopes. simpl. simp sub_tlvs_loop. reflexivity.
  - cbn [forallb] in Hok. apply andb_true_iff in Hok. destruct Hok as [Hhd Htl].
    apply envelope_ok_spec in Hhd. cbn [fst snd] in Hhd.
    unfold envelopes. cbn [flat_map fst snd].
    rewrite asla_walk_envelope by tauto.
    cbn [for_each fst snd].
    destruct (dispatch reg t v) as [item|e]; [|reflexivity].
    cbn [bind]. apply IH. exact Htl.
Qed.

(** X2.  Walking a buffer made of complete sub-TLVs, whose type codes
    and value lengths fit 16 bits, handles the sub-TLVs one by one in
    wire order: each value goes to the decoder registered for its type,
    or to the fallback, and the records are appended in that order; the
    first decoder that raises ends the walk with its exception.  So the
    walk returns exactly one record per sub-TLV when every decoder
    returns.  This holds for both containers. *)
Theorem sub_tlv_walk_in_order (reg : registry) (tlvs : list (Z * bytes))
    (sub_tlvs : list pyvalue) :
  forallb envelope_ok tlvs = true ->
  AppSpecLinkAttr.sub_tlvs_loop reg (envelopes tlvs) sub_tlvs
  = for_each tlvs
      (fun tv acc => item <- dispatch reg (fst tv) (snd tv) ;; Return (acc ++ [item]))
      sub_tlvs /\
  FlexAlgorithmDefine.sub_tlvs_loop reg (envelopes tlvs) sub_tlvs
  = for_each tlvs
      (fun tv acc => item <- dispatch reg (fst tv) (snd tv) ;; Return (acc ++ [item]))
      sub_tlvs /\
  (forall items,
     AppSpecLinkAttr.sub_tlvs_loop reg (envelopes tlvs) sub_tlvs = Return items ->
     length items = (length sub_tlvs + length tlvs)%nat).
Proof.
  intros Hok.
  pose proof (asla_walk_envelopes reg tlvs sub_tlvs Hok) as Hasla.
  split; [exact Hasla|]. split.
  - rewrite <- (walks_agree_bounded reg (length (envelopes tlvs))) by lia.
    exact Hasla.
  - rewrite Hasla. clear Hasla Hok. revert sub_tlvs.
    induction tlvs as [|tv tlvs IH]; intros sub_tlvs items Hret.
    + simpl in Hret. injection Hret as <-. simpl. lia.
    + cbn [for_each] in Hret.
      destruct (dispatch reg (fst tv) (snd tv)) as [item|e]; [|discriminate Hret].
      cbn [bind] in Hret. apply IH in Hret.
      rewrite length_app in Hret. simpl in Hret. simpl. lia.
Qed.

Lemma sub_tlv_walk_in_order_witness :
  forallb envelope_ok [(65535, [xde; xad]); (1043, [x80; x00])] = true /\
  FlexAlgorithmDefine.sub_tlvs_loop leaf_tlvs
    (envelopes [(65535, [xde; xad]); (1043, [x80; x00])]) []
  = Return [VDict [("type"%string, VInt 65535);
                   ("value"%string, VStr "b'dead'")];
            VDict [("type"%string, VStr "flex_algo_defn_flags");
                   ("value"%string, VDict [("M"%string, VInt 1)])]].
Proof.
  split; [reflexivity|].
  exact (proj1 (proj2 (sub_tlv_walk_in_order leaf_tlvs
           [(65535, [xde; xad]); (1043, [x80; x00])] [] eq_refl))).
Defined.


Lemma fad_unpack_steps (reg : registry) (data : bytes) :
  FlexAlgorithmDefine.unpack reg data
  = match data with
    | f0 :: f1 :: f2 :: f3 :: rest =>
        sub_tlvs <- FlexAlgorithmDefine.sub_tlvs_loop reg rest [] ;;
        Return (mk_tlv 1039 "flex_algo_defn" (VDict
          [("flex_algo"%string, VInt (byte_val f0));
           ("metric_type"%string, VInt (byte_val f1));
           ("calc_type"%string, VInt (byte_val f2));
           ("priority"%string, VInt (byte_val f3));
           ("sub_tlvs"%string, VList sub_tlvs)]))
    | _ => Raise struct_error
    end.
Proof.
  unfold FlexAlgorithmDefine.unpack.
  destruct data as [|f0 [|f1 [|f2 [|f3 rest]]]]; reflexivity.
Qed.



(** ** FlexAlgorithmDefine: fixed fields and failures *)

(** X4.  The decoder of FlexAlgorithmDefine raises [struct.error] on any
    buffer of fewer than 4 bytes, the empty one included.  On a longer
    buffer the four fixed fields are its first four bytes as they are,
    with no check of their range (a Flex-Algo number below 128 is
    accepted), and the outcome is that of the walk over the bytes after
    them: its list of records under ["sub_tlvs"], or its exception. *)
Theorem fad_unpack_fixed_fields (reg : registry) (data : bytes) :
  ((length data < 4)%nat ->
   FlexAlgorithmDefine.unpack reg data = Raise struct_error) /\
  (forall f0 f1 f2 f3 rest,
     data = f0 :: f1 :: f2 :: f3 :: rest ->
     (forall sub_tlvs,
        FlexAlgorithmDefine.sub_tlvs_loop reg rest [] = Return sub_tlvs ->
        FlexAlgorithmDefine.unpack reg data
        = Return (mk_tlv 1039 "flex_algo_defn" (VDict
            [("flex_algo"%string, VInt (byte_val f0));
             ("metric_type"%string, VInt (byte_val f1));
             ("calc_type"%string, VInt (byte_val f2));
             ("priority"%string, VInt (byte_val f3));
             ("sub_tlvs"%string, VList sub_tlvs)]))) /\
     (forall e,
        FlexAlgorithmDefine.sub_tlvs_loop reg rest [] = Raise e ->
        FlexAlgorithmDefine.unpack reg data = Raise e) /\
     (rest = [] ->
      FlexAlgorithmDefine.unpack reg data
      = Return (mk_tlv 1039 "flex_algo_defn" (VDict
          [("flex_algo"%string, VInt (byte_val f0));
           ("metric_type"%string, VInt (byte_val f1));
           ("calc_type"%string, VInt (byte_val f2));
           ("priority"%string, VInt (byte_val f3));
           ("sub_tlvs"%string, VList [])])))).
Proof.
  split.
  - intros Hlen. rewrite fad_unpack_steps.
    destruct data as [|f0 [|f1 [|f2 [|f3 rest]]]]; try reflexivity.
    simpl in Hlen. lia.
  - intros f0 f1 f2 f3 rest ->. rewrite fad_unpack_steps.
    split; [|split].
    + intros sub_tlvs ->. reflexivity.
    + intros e ->. reflexivity.
    + intros ->. simp sub_tlvs_loop. reflexivity.
Qed.

Lemma fad_unpack_fixed_fields_witness :
  ((length [x80; x01; x00] < 4)%nat /\
   FlexAlgorithmDefine.unpack leaf_tlvs [x80; x01; x00] = Raise struct_error) /\
  FlexAlgorithmDefine.unpack leaf_tlvs [x05; x01; x00; x80]
  = Return (mk_tlv 1039 "flex_algo_defn" (VDict
      [("flex_algo"%string, VInt 5); ("metric_type"%string, VInt 1);
       ("calc_type"%string, VInt 0); ("priority"%string, VInt 128);
       ("sub_tlvs"%string, VList [])])).
Proof.
  split.
  - assert (H : (length [x80; x01; x00] < 4)%nat) by (simpl; lia).
    split; [exact H|].
    exact (proj1 (fad_unpack_fixed_fields leaf_tlvs [x80; x01; x00]) H).
  - exact (proj2 (proj2 (proj2 (fad_unpack_fixed_fields leaf_tlvs
             [x05; x01; x00; x80]) x05 x01 x00 x80 [] eq_refl)) eq_refl).
Defined.

(** ** AppSpecLinkAttr: failures and the reserved bytes *)

(** X5.  The decoder of AppSpecLinkAttr raises [IndexError] on a buffer
    of fewer than 2 bytes, the empty one included.  With the two length
    bytes there, it raises [struct.error] when the SABM is declared 4 or 8
    bytes long and fewer bytes follow the header, or when the SABM is
    read and the UDABM is declared 4 or 8 bytes long and fewer bytes
    follow the SABM; and with both masks read it raises whatever the
    walk over the bytes after them raises. *)
Theorem asla_unpack_failures (reg : registry) (data : bytes) :
  ((length data < 2)%nat -> AppSpecLinkAttr.unpack reg data = Raise IndexError) /\
  (forall b0 b1,
     nth_error data 0 = Some b0 ->
     nth_error data 1 = Some b1 ->
     let sabm_len := Z.to_nat (byte_val b0) in
     let udabm_len := Z.to_nat (byte_val b1) in
     let sabm_bytes := slice data 4 (4 + sabm_len) in
     let udabm_bytes := slice data (4 + sabm_len) (4 + sabm_len + udabm_len) in
     ((sabm_len = 4%nat \/ sabm_len = 8%nat) ->
      length sabm_bytes <> sabm_len ->
      AppSpecLinkAttr.unpack reg data = Raise struct_error) /\
     ((sabm_len = 4%nat \/ sabm_len = 8%nat -> length sabm_bytes = sabm_len) ->
      (udabm_len = 4%nat \/ udabm_len = 8%nat) ->
      length udabm_bytes <> udabm_len ->
      AppSpecLinkAttr.unpack reg data = Raise struct_error) /\
     (forall e,
        (sabm_len = 4%nat \/ sabm_len = 8%nat -> length sabm_bytes = sabm_len) ->
        (udabm_len = 4%nat \/ udabm_len = 8%nat -> length udabm_bytes = udabm_len) ->
        AppSpecLinkAttr.sub_tlvs_loop reg
          (skipn (4 + sabm_len + udabm_len) data) [] = Raise e ->
        AppSpecLinkAttr.unpack reg data = Raise e)).
Proof.
  assert (Hshort : forall (b : byte) (mask : bytes),
            mask_short (byte_val b) mask = false <->
            (Z.to_nat (byte_val b) = 4%nat \/ Z.to_nat (byte_val b) = 8%nat ->
             length mask = Z.to_nat (byte_val b))).
  { intros b mask. pose proof (byte_val_range b) as Hr. unfold mask_short.
    rewrite andb_false_iff, orb_false_iff, negb_false_iff, !Z.eqb_neq, Nat.eqb_eq.
    split.
    - intros [[H4 H8]|Hl] Hc; [lia|exact Hl].
    - intros H.
      destruct (Z.eq_dec (byte_val b) 4) as [E|E]; [right; apply H; lia|].
      destruct (Z.eq_dec (byte_val b) 8) as [E'|E']; [right; apply H; lia|].
      left. split; assumption. }
  split.
  - intros Hlen. rewrite asla_unpack_steps.
    destruct data as [|b0 [|b1 rest]]; try reflexivity. simpl in Hlen. lia.
  - intros b0 b1 Hb0 Hb1 sabm_len udabm_len sabm_bytes udabm_bytes.
    subst sabm_len udabm_len sabm_bytes udabm_bytes.
    rewrite asla_unpack_steps, Hb0, Hb1. cbv zeta.
    split; [|split].
    + intros Hdecl Hpart.
      destruct (mask_short (byte_val b0) _) eqn:Hs; [reflexivity|].
      pose proof (proj1 (Hshort _ _) Hs Hdecl) as Hc. contradiction.
    + intros Hsabm Hdecl Hpart.
      rewrite (proj2 (Hshort b0 _) Hsabm).
      destruct (mask_short (byte_val b1) _) eqn:Hs; [reflexivity|].
      pose proof (proj1 (Hshort _ _) Hs Hdecl) as Hc. contradiction.
    + intros e Hsabm Hudabm Hloop.
      rewrite (proj2 (Hshort b0 _) Hsabm), (proj2 (Hshort b1 _) Hudabm), Hloop.
      reflexivity.
Qed.

Lemma asla_unpack_failures_witness :
  ((length [x04] < 2)%nat /\
   AppSpecLinkAttr.unpack leaf_tlvs [x04] = Raise IndexError) /\
  AppSpecLinkAttr.unpack leaf_tlvs [x00;x08;x00;x00; x12;x34;x56;x78]
  = Raise struct_error.
Proof.
  split.
  - assert (H : (length [x04] < 2)%nat) by (simpl; lia).
    split; [exact H|].
    exact (proj1 (asla_unpack_failures leaf_tlvs [x04]) H).
  - refine (proj1 (proj2 (proj2 (asla_unpack_failures leaf_tlvs
              [x00;x08;x00;x00; x12;x34;x56;x78]) x00 x08 eq_refl eq_refl))
              _ _ _).
    + intros [H|H]; vm_compute in H; discriminate H.
    + right. reflexivity.
    + vm_compute. discriminate.
Defined.

(** X6.  The two reserved bytes of the AppSpecLinkAttr header have no
    effect on the decode: buffers that differ in bytes 2 and 3 only give
    the same result, or the same exception. *)
Theorem asla_reserved_ignored (reg : registry) (b0 b1 r2 r3 r2' r3' : byte)
    (rest : bytes) :
  AppSpecLinkAttr.unpack reg (b0 :: b1 :: r2 :: r3 :: rest)
  = AppSpecLinkAttr.unpack reg (b0 :: b1 :: r2' :: r3' :: rest).
Proof.
  rewrite !asla_unpack_steps. cbn [nth_error]. cbv zeta.
  unfold slice. cbn [Nat.add skipn]. reflexivity.
Qed.

(** ** FlexAlgoDefinitionFlags on short input *)



(** ** The list decoders against network-order packing *)

Lemma all_fit_cons (size : nat) (v : Z) (vs : list Z) :
  all_fit size (v :: vs) = true ->
  0 <= v < 256 ^ Z.of_nat size /\ all_fit size vs = true.
Proof.
  unfold all_fit. cbn [forallb].
  rewrite !andb_true_iff, Z.leb_le, Z.ltb_lt. tauto.
Qed.

Lemma chunk_values_packed (width : nat) (vs : list Z) :
  (0 < width)%nat ->
  all_fit width vs = true ->
  chunk_values width (flat_map (be_bytes width) vs) = vs.
Proof.
  intros Hw. induction vs as [|v vs IH]; intros Hfit.
  - unfold chunk_values. simpl length. rewrite Nat.Div0.div_0_l. reflexivity.
  - apply all_fit_cons in Hfit. destruct Hfit as [Hv Hfit].
    cbn [flat_map].
    rewrite chunk_values_cons by (rewrite length_app, length_be_bytes; lia).
    rewrite firstn_app, skipn_app, length_be_bytes, Nat.sub_diag.
    rewrite firstn_all2, skipn_all2 by (rewrite length_be_bytes; lia).
    simpl firstn. simpl skipn. rewrite app_nil_r. cbn [app].
    rewrite be_uint_be_bytes by exact Hv. rewrite IH by exact Hfit. reflexivity.
Qed.

(** X8.  The four list-valued decoders of the Flexible Algorithm
    Definition undo network-order packing: given the 4-byte big-endian
    forms of any numbers of 32 bits laid end to end, each of them returns
    these numbers, in order. *)
Theorem u32_list_decoders_unpack_packed (vs : list Z) :
  all_fit 4 vs = true ->
  FlexAlgoExcludeAdminGroup.unpack (flat_map (be_bytes 4) vs)
    = Return (mk_tlv 1040 "flex_algo_excl_admin_group" (VList (map VInt vs))) /\
  FlexAlgoIncludeAnyAdminGroup.unpack (flat_map (be_bytes 4) vs)
    = Return (mk_tlv 1041 "flex_algo_incl_any_admin_group" (VList (map VInt vs))) /\
  FlexAlgoIncludeAllAdminGroup.unpack (flat_map (be_bytes 4) vs)
    = Return (mk_tlv 1042 "flex_algo_incl_all_admin_group" (VList (map VInt vs))) /\
  FlexAlgoExcludeSRLG.unpack (flat_map (be_bytes 4) vs)
    = Return (mk_tlv 1044 "flex_algo_excl_srlg" (VList (map VInt vs))).
Proof.
  intros Hfit.
  assert (Hmod : (length (flat_map (be_bytes 4) vs) mod 4 = 0)%nat)
    by (rewrite length_flat_map_be_bytes; apply Nat.Div0.mod_mul).
  unfold FlexAlgoExcludeAdminGroup.unpack, FlexAlgoIncludeAnyAdminGroup.unpack,
    FlexAlgoIncludeAllAdminGroup.unpack, FlexAlgoExcludeSRLG.unpack.
  rewrite (u32_loop_multiple _ [] Hmod). cbn [bind app].
  rewrite chunk_values_packed by (try lia; exact Hfit).
  repeat split; reflexivity.
Qed.

Lemma u32_list_decoders_unpack_packed_witness :
  all_fit 4 [100; 4294967295; 0] = true /\
  FlexAlgoExcludeSRLG.unpack
    [x00;x00;x00;x64; xff;xff;xff;xff; x00;x00;x00;x00]
  = Return (mk_tlv 1044 "flex_algo_excl_srlg"
              (VList [VInt 100; VInt 4294967295; VInt 0])).
Proof.
  split; [reflexivity|].
  exact (proj2 (proj2 (proj2
    (u32_list_decoders_unpack_packed [100; 4294967295; 0] eq_refl)))).
Defined.

(** X9.  The decoder of MultiTopologyIdentifier undoes network-order
    packing: given the 2-byte big-endian forms of any numbers of 16 bits
    laid end to end, it returns these numbers, in order, reserved bits
    included. *)
Theorem mt_id_unpack_packed (vs : list Z) :
  all_fit 2 vs = true ->
  MultiTopologyIdentifier.unpack (flat_map (be_bytes 2) vs)
  = Return (mk_tlv 263 "mt_id" (VList (map VInt vs))).
Proof.
  intros Hfit. unfold MultiTopologyIdentifier.unpack.
  rewrite (mt_loop_even (length vs))
    by (rewrite length_flat_map_be_bytes; lia).
  rewrite chunk_values_packed by (try lia; exact Hfit). reflexivity.
Qed.

Lemma mt_id_unpack_packed_witness :
  all_fit 2 [2; 61443; 0] = true /\
  MultiTopologyIdentifier.unpack [x00;x02; xf0;x03; x00;x00]
  = Return (mk_tlv 263 "mt_id" (VList [VInt 2; VInt 61443; VInt 0])).
Proof.
  split; [reflexivity|].
  exact (mt_id_unpack_packed [2; 61443; 0] eq_refl).
Defined.

(** ** The list decoders on a concatenation *)

Lemma chunk_values_app (width : nat) (k : nat) : forall (a b : bytes),
  (0 < width)%nat ->
  length a = (width * k)%nat ->
  chunk_values width (a ++ b) = chunk_values width a ++ chunk_values width b.
Proof.
  induction k as [|k IH]; intros a b Hw Hlen.
  - rewrite Nat.mul_0_r in Hlen. destruct a; [|discriminate Hlen].
    unfold chunk_values at 2. simpl length. rewrite Nat.Div0.div_0_l. reflexivity.
  - assert (Hge : (width <= length a)%nat) by nia.
    rewrite (chunk_values_cons width (a ++ b)) by (rewrite length_app; lia).
    rewrite (chunk_values_cons width a) by lia.
    rewrite firstn_app, skipn_app.
    replace (width - length a)%nat with O by lia.
    simpl firstn. simpl skipn. rewrite app_nil_r.
    rewrite IH by (try exact Hw; rewrite length_skipn; nia).
    reflexivity.
Qed.

Lemma u32_loop_inv (data : bytes) (items : list pyvalue) :
  for_each (py_range 0 (length data) 4)
    (fun i acc => v <- unpack_I (slice data i (i + 4)) ;; Return (acc ++ [VInt v]))
    []
  = Return items ->
  (length data mod 4 = 0)%nat /\ items = map VInt (chunk_values 4 data).
Proof.
  intros Hret.
  destruct (Nat.eq_dec (length data mod 4) 0) as [Hmod|Hmod].
  - rewrite (u32_loop_multiple data [] Hmod) in Hret.
    injection Hret as <-. split; [exact Hmod|reflexivity].
  - rewrite (u32_loop_partial data [] Hmod) in Hret. discriminate Hret.
Qed.

Lemma u32_loop_concat (a b : bytes) (la lb : list pyvalue) :
  for_each (py_range 0 (length a) 4)
    (fun i acc => v <- unpack_I (slice a i (i + 4)) ;; Return (acc ++ [VInt v]))
    [] = Return la ->
  for_each (py_range 0 (length b) 4)
    (fun i acc => v <- unpack_I (slice b i (i + 4)) ;; Return (acc ++ [VInt v]))
    [] = Return lb ->
  for_each (py_range 0 (length (a ++ b)) 4)
    (fun i acc => v <- unpack_I (slice (a ++ b) i (i + 4)) ;; Return (acc ++ [VInt v]))
    [] = Return (la ++ lb).
Proof.
  intros Ha Hb.
  apply u32_loop_inv in Ha. destruct Ha as [Hma ->].
  apply u32_loop_inv in Hb. destruct Hb as [Hmb ->].
  div_mod_facts (length a) 4%nat. div_mod_facts (length b) 4%nat.
  assert (Hmod : (length (a ++ b) mod 4 = 0)%nat).
  { rewrite length_app.
    replace (length a + length b)%nat
      with ((length a / 4 + length b / 4) * 4)%nat by lia.
    apply Nat.Div0.mod_mul. }
  rewrite (u32_loop_multiple (a ++ b) [] Hmod). cbn [app].
  rewrite (chunk_values_app 4 (length a / 4)) by lia.
  rewrite map_app. reflexivity.
Qed.

Lemma mt_loop_inv (data : bytes) (items : list pyvalue) :
  MultiTopologyIdentifier.unpack_loop data [] = Return items ->
  (length data mod 2 = 0)%nat /\ items = map VInt (chunk_values 2 data).
Proof.
  intros Hret. div_mod_facts (length data) 2%nat.
  destruct (Nat.eq_dec (length data mod 2) 0) as [Hmod|Hmod].
  - rewrite (mt_loop_even (length data / 2)) in Hret by lia.
    injection Hret as <-. split; [exact Hmod|reflexivity].
  - rewrite (mt_loop_odd (length data / 2)) in Hret by lia. discriminate Hret.
Qed.

(** X10.  The list decoders split over a concatenation: when two buffers
    decode to the lists [la] and [lb], the buffer made of the first
    followed by the second decodes to [la] followed by [lb].  This holds
    for the four list-valued decoders of the Flexible Algorithm
    Definition and for MultiTopologyIdentifier. *)
Theorem list_decoders_concat (a b : bytes) (la lb : list pyvalue) :
  (FlexAlgoExcludeAdminGroup.unpack a
     = Return (mk_tlv 1040 "flex_algo_excl_admin_group" (VList la)) ->
   FlexAlgoExcludeAdminGroup.unpack b
     = Return (mk_tlv 1040 "flex_algo_excl_admin_group" (VList lb)) ->
   FlexAlgoExcludeAdminGroup.unpack (a ++ b)
     = Return (mk_tlv 1040 "flex_algo_excl_admin_group" (VList (la ++ lb)))) /\
  (FlexAlgoIncludeAnyAdminGroup.unpack a
     = Return (mk_tlv 1041 "flex_algo_incl_any_admin_group" (VList la)) ->
   FlexAlgoIncludeAnyAdminGroup.unpack b
     = Return (mk_tlv 1041 "flex_algo_incl_any_admin_group" (VList lb)) ->
   FlexAlgoIncludeAnyAdminGroup.unpack (a ++ b)
     = Return (mk_tlv 1041 "flex_algo_incl_any_admin_group" (VList (la ++ lb)))) /\
  (FlexAlgoIncludeAllAdminGroup.unpack a
     = Return (mk_tlv 1042 "flex_algo_incl_all_admin_group" (VList la)) ->
   FlexAlgoIncludeAllAdminGroup.unpack b
     = Return (mk_tlv 1042 "flex_algo_incl_all_admin_group" (VList lb)) ->
   FlexAlgoIncludeAllAdminGroup.unpack (a ++ b)
     = Return (mk_tlv 1042 "flex_algo_incl_all_admin_group" (VList (la ++ lb)))) /\
  (FlexAlgoExcludeSRLG.unpack a
     = Return (mk_tlv 1044 "flex_algo_excl_srlg" (VList la)) ->
   FlexAlgoExcludeSRLG.unpack b
     = Return (mk_tlv 1044 "flex_algo_excl_srlg" (VList lb)) ->
   FlexAlgoExcludeSRLG.unpack (a ++ b)
     = Return (mk_tlv 1044 "flex_algo_excl_srlg" (VList (la ++ lb)))) /\
  (MultiTopologyIdentifier.unpack a = Return (mk_tlv 263 "mt_id" (VList la)) ->
   MultiTopologyIdentifier.unpack b = Return (mk_tlv 263 "mt_id" (VList lb)) ->
   MultiTopologyIdentifier.unpack (a ++ b)
     = Return (mk_tlv 263 "mt_id" (VList (la ++ lb)))).
Proof.
  unfold FlexAlgoExcludeAdminGroup.unpack, FlexAlgoIncludeAnyAdminGroup.unpack,
    FlexAlgoIncludeAllAdminGroup.unpack, FlexAlgoExcludeSRLG.unpack,
    MultiTopologyIdentifier.unpack.
  repeat match goal with |- _ /\ _ => split end.
  1-4: intros Ha Hb;
    destruct (for_each (py_range 0 (length a) 4) _ []) as [xa|] eqn:Ea;
      [|discriminate Ha];
    destruct (for_each (py_range 0 (length b) 4) _ []) as [xb|] eqn:Eb;
      [|discriminate Hb];
    cbn [bind] in Ha, Hb; injection Ha as ->; injection Hb as ->;
    rewrite (u32_loop_concat a b la lb Ea Eb); reflexivity.
  intros Ha Hb.
  destruct (MultiTopologyIdentifier.unpack_loop a []) as [xa|] eqn:Ea;
    [|discriminate Ha].
  destruct (MultiTopologyIdentifier.unpack_loop b []) as [xb|] eqn:Eb;
    [|discriminate Hb].
  cbn [bind] in Ha, Hb. injection Ha as ->. injection Hb as ->.
  apply mt_loop_inv in Ea. destruct Ea as [Hma ->].
  apply mt_loop_inv in Eb. destruct Eb as [Hmb ->].
  div_mod_facts (length a) 2%nat. div_mod_facts (length b) 2%nat.
  rewrite (mt_loop_even (length a / 2 + length b / 2))
    by (rewrite length_app; lia).
  cbn [bind app].
  rewrite (chunk_values_app 2 (length a / 2)) by lia.
  rewrite map_app. reflexivity.
Qed.

Lemma list_decoders_concat_witness :
  MultiTopologyIdentifier.unpack [x00;x02]
    = Return (mk_tlv 263 "mt_id" (VList [VInt 2])) /\
  MultiTopologyIdentifier.unpack [x00;x03; x00;x04]
    = Return (mk_tlv 263 "mt_id" (VList [VInt 3; VInt 4])) /\
  MultiTopologyIdentifier.unpack ([x00;x02] ++ [x00;x03; x00;x04])
    = Return (mk_tlv 263 "mt_id" (VList ([VInt 2] ++ [VInt 3; VInt 4]))).
Proof.
  split; [reflexivity|]. split; [reflexivity|].
  exact (proj2 (proj2 (proj2 (proj2
    (list_decoders_concat [x00;x02] [x00;x03; x00;x04] [VInt 2] [VInt 3; VInt 4]))))
    eq_refl eq_refl).
Defined.

(** ** FlexAlgorithmDefine with the sub-TLVs of its own module *)

(** X11.  With the classes FlexAlgoExcludeAdminGroup and
    FlexAlgoDefinitionFlags registered under their type codes 1040 and
    1043, a Flexible Algorithm Definition made of the four fixed bytes,
    an Exclude Admin Group sub-TLV packing any 32-bit groups and a Flags
    sub-TLV decodes to the fixed fields and the two records, named by the
    classes' display names, in wire order.  And an Exclude Admin Group
    sub-TLV whose length is not a multiple of 4 makes the whole decode
    raise [struct.error], whatever follows it. *)
Theorem fad_with_registered_sub_tlvs (reg : registry) (f0 f1 f2 f3 m0 m1 : byte)
    (groups : list Z) :
  reg 1040 = Some FlexAlgoExcludeAdminGroup.unpack ->
  reg 1043 = Some FlexAlgoDefinitionFlags.unpack ->
  (all_fit 4 groups = true ->
   Z.of_nat (length groups) < 16384 ->
   FlexAlgorithmDefine.unpack reg
     (f0 :: f1 :: f2 :: f3
      :: envelope 1040 (flat_map (be_bytes 4) groups) ++ envelope 1043 [m0; m1])
   = Return (mk_tlv 1039 "flex_algo_defn" (VDict
       [("flex_algo"%string, VInt (byte_val f0));
        ("metric_type"%string, VInt (byte_val f1));
        ("calc_type"%string, VInt (byte_val f2));
        ("priority"%string, VInt (byte_val f3));
        ("sub_tlvs"%string,
         VList
           [VDict [("type"%string, VStr "flex_algo_excl_admin_group");
                   ("value"%string, VList (map VInt groups))];
            VDict [("type"%string, VStr "flex_algo_defn_flags");
                   ("value"%string,
                    VDict [("M"%string,
                            VInt (Z.shiftr (be_uint [m0; m1]) 15))])]])]))) /\
  (forall v rest,
     Z.of_nat (length v) < 65536 ->
     (length v mod 4 <> 0)%nat ->
     FlexAlgorithmDefine.unpack reg (f0 :: f1 :: f2 :: f3 :: envelope 1040 v ++ rest)
     = Raise struct_error).
Proof.
  intros H1040 H1043. split.
  - intros Hfit Hcount. rewrite fad_unpack_steps.
    assert (Hlen : Z.of_nat (length (flat_map (be_bytes 4) groups)) < 65536)
      by (rewrite length_flat_map_be_bytes; lia).
    rewrite fad_walk_envelope by lia.
    unfold dispatch at 1. rewrite H1040.
    unfold FlexAlgoExcludeAdminGroup.unpack.
    rewrite (u32_loop_multiple _ [])
      by (rewrite length_flat_map_be_bytes; apply Nat.Div0.mod_mul).
    rewrite chunk_values_packed by (try lia; exact Hfit).
    cbn [bind app dict TYPE_STR value].
    rewrite <- (app_nil_r (envelope 1043 [m0; m1])).
    rewrite fad_walk_envelope by (simpl; lia).
    unfold dispatch. rewrite H1043.
    simp sub_tlvs_loop. reflexivity.
  - intros v rest Hlen Hmod. rewrite fad_unpack_steps.
    rewrite fad_walk_envelope by lia.
    unfold dispatch. rewrite H1040.
    unfold FlexAlgoExcludeAdminGroup.unpack.
    rewrite (u32_loop_partial _ [] Hmod). reflexivity.
Qed.

Lemma fad_with_registered_sub_tlvs_witness :
  leaf_tlvs 1040 = Some FlexAlgoExcludeAdminGroup.unpack /\
  leaf_tlvs 1043 = Some FlexAlgoDefinitionFlags.unpack /\
  all_fit 4 [1; 255] = true /\
  FlexAlgorithmDefine.unpack leaf_tlvs
    [x80;x01;x00;x80;
     x04;x10;x00;x08; x00;x00;x00;x01; x00;x00;x00;xff;
     x04;x13;x00;x02; x80;x00]
  = Return (mk_tlv 1039 "flex_algo_defn" (VDict
      [("flex_algo"%string, VInt 128); ("metric_type"%string, VInt 1);
       ("calc_type"%string, VInt 0); ("priority"%string, VInt 128);
       ("sub_tlvs"%string,
        VList
          [VDict [("type"%string, VStr "flex_algo_excl_admin_group");
                  ("value"%string, VList [VInt 1; VInt 255])];
           VDict [("type"%string, VStr "flex_algo_defn_flags");
                  ("value"%string, VDict [("M"%string, VInt 1)])]])])) /\
  FlexAlgorithmDefine.unpack leaf_tlvs
    [x80;x01;x00;x80; x04;x10;x00;x03; x00;x00;x01; x04;x13;x00;x02; x80;x00]
  = Raise struct_error.
Proof.
  split; [reflexivity|]. split; [reflexivity|]. split; [reflexivity|].
  split.
  - exact (proj1 (fad_with_registered_sub_tlvs leaf_tlvs x80 x01 x00 x80 x80 x00
             [1; 255] eq_refl eq_refl) eq_refl eq_refl).
  - refine (proj2 (fad_with_registered_sub_tlvs leaf_tlvs x80 x01 x00 x80 x00 x00
             [] eq_refl eq_refl) [x00;x00;x01] [x04;x13;x00;x02; x80;x00] eq_refl _).
    simpl. discriminate.
Defined.

(** ** Hexadecimal texts hold the bytes they were made from *)

Lemma hex_digit_value_hex_digit (n : Z) :
  0 <= n < 16 -> hex_digit_value (hex_digit n) = Some n.
Proof.
  intros Hn.
  rewrite <- (Z2Nat.id n) by lia.
  assert (Hk : (Z.to_nat n < 16)%nat) by lia.
  generalize dependent (Z.to_nat n). intros k Hk.
  do 16 (destruct k as [|k]; [reflexivity|]). lia.
Qed.

Lemma byte_of_Z_byte_val (b : byte) : byte_of_Z (byte_val b) = b.
Proof.
  unfold byte_of_Z, byte_val. rewrite N2Z.id, Byte.of_to_N. reflexivity.
Qed.

Lemma bytes_of_hex_b2a_hex (bs : bytes) :
  bytes_of_hex (decode_ascii (b2a_hex bs)) = Some bs.
Proof.
  unfold decode_ascii, string_of_list_byte.
  induction bs as [|b bs IH]; [reflexivity|].
  unfold b2a_hex in *. cbn [flat_map app map string_of_list_ascii bytes_of_hex].
  rewrite !ascii_of_byte_of_ascii.
  pose proof (byte_val_range b) as Hr.
  pose proof (Z.div_mod (byte_val b) 16 ltac:(lia)) as Hdm.
  pose proof (Z.mod_pos_bound (byte_val b) 16 ltac:(lia)) as Hmb.
  rewrite !hex_digit_value_hex_digit by lia.
  rewrite IH.
  replace (byte_val b / 16 * 16 + byte_val b mod 16) with (byte_val b) by lia.
  rewrite byte_of_Z_byte_val. reflexivity.
Qed.

(** X12.  The mask texts of a decoded AppSpecLinkAttr lose nothing: for
    a declared length other than 0 the value is ["0x"] followed by
    lower-case hexadecimal digits that read back, two by two, as exactly
    the mask bytes taken from the buffer; for a declared length of 0 it
    is [None]. *)
Theorem asla_mask_text_reads_back (reg : registry) (data : bytes) (t : tlv) :
  AppSpecLinkAttr.unpack reg data = Return t ->
  exists b0 b1 sabm udabm sub_tlvs,
    nth_error data 0 = Some b0 /\
    nth_error data 1 = Some b1 /\
    value t = VDict
      [("sabm"%string,
        VDict [("len"%string, VInt (byte_val b0)); ("value"%string, sabm)]);
       ("udabm"%string,
        VDict [("len"%string, VInt (byte_val b1)); ("value"%string, udabm)]);
       ("sub_tlvs"%string, VList sub_tlvs)] /\
    (byte_val b0 = 0 -> sabm = VNone) /\
    (byte_val b0 <> 0 ->
     exists digits,
       sabm = VStr ("0x" ++ digits) /\
       bytes_of_hex digits
       = Some (slice data 4 (4 + Z.to_nat (byte_val b0)))) /\
    (byte_val b1 = 0 -> udabm = VNone) /\
    (byte_val b1 <> 0 ->
     exists digits,
       udabm = VStr ("0x" ++ digits) /\
       bytes_of_hex digits
       = Some (slice data (4 + Z.to_nat (byte_val b0))
                 (4 + Z.to_nat (byte_val b0) + Z.to_nat (byte_val b1)))).
Proof.
  intros Hret. rewrite asla_unpack_steps in Hret.
  destruct (nth_error data 0) as [b0|]; [|discriminate Hret].
  destruct (nth_error data 1) as [b1|]; [|discriminate Hret].
  cbv zeta in Hret.
  destruct (mask_short (byte_val b0) _); [discriminate Hret|].
  destruct (mask_short (byte_val b1) _); [discriminate Hret|].
  destruct (AppSpecLinkAttr.sub_tlvs_loop reg _ []) as [sub_tlvs|e];
    [|discriminate Hret].
  cbn [bind] in Hret. injection Hret as <-.
  do 5 eexists. split; [reflexivity|]. split; [reflexivity|].
  split; [reflexivity|].
  unfold mask_value.
  split; [intros ->; reflexivity|]. split.
  - intros Hn. rewrite (proj2 (Z.eqb_neq _ 0) Hn).
    eexists. split; [reflexivity|]. apply bytes_of_hex_b2a_hex.
  - split; [intros ->; reflexivity|].
    intros Hn. rewrite (proj2 (Z.eqb_neq _ 0) Hn).
    eexists. split; [reflexivity|]. apply bytes_of_hex_b2a_hex.
Qed.

Lemma asla_mask_text_reads_back_witness :
  AppSpecLinkAttr.unpack leaf_tlvs [x04;x00;x00;x00; x10;x00;x00;x00]
  = Return (mk_tlv 1122 "ASLA" (VDict
      [("sabm"%string,
        VDict [("len"%string, VInt 4); ("value"%string, VStr "0x10000000")]);
       ("udabm"%string, VDict [("len"%string, VInt 0); ("value"%string, VNone)]);
       ("sub_tlvs"%string, VList [])])) /\
  exists b0 b1 : byte,
    nth_error [x04;x00;x00;x00; x10;x00;x00;x00] 0 = Some b0 /\
    nth_error [x04;x00;x00;x00; x10;x00;x00;x00] 1 = Some b1.
Proof.
  split; [reflexivity|].
  destruct (asla_mask_text_reads_back leaf_tlvs
              [x04;x00;x00;x00; x10;x00;x00;x00] _ eq_refl)
    as (b0 & b1 & _ & _ & _ & H0 & H1 & _).
  exists b0, b1. split; [exact H0|exact H1].
Defined.

(** X13.  The fallback record of a complete sub-TLV whose type is not
    registered loses nothing either, in both containers: it holds the
    type code as a number and, between [b'] and the closing quote, the
    lower-case hexadecimal digits that read back as exactly the value
    bytes; the walk then goes on with the bytes after the sub-TLV. *)
Theorem fallback_record_reads_back (reg : registry) (t : Z) (v rest : bytes)
    (sub_tlvs : list pyvalue) :
  reg t = None ->
  0 <= t < 65536 ->
  Z.of_nat (length v) < 65536 ->
  exists digits,
    bytes_of_hex digits = Some v /\
    AppSpecLinkAttr.sub_tlvs_loop reg (envelope t v ++ rest) sub_tlvs
    = AppSpecLinkAttr.sub_tlvs_loop reg rest
        (sub_tlvs ++
         [VDict [("type"%string, VInt t);
                 ("value"%string, VStr ("b'" ++ digits ++ "'"))]]) /\
    FlexAlgorithmDefine.sub_tlvs_loop reg (envelope t v ++ rest) sub_tlvs
    = FlexAlgorithmDefine.sub_tlvs_loop reg rest
        (sub_tlvs ++
         [VDict [("type"%string, VInt t);
                 ("value"%string, VStr ("b'" ++ digits ++ "'"))]]).
Proof.
  intros Hreg Ht Hv.
  exists (decode_ascii (b2a_hex v)).
  split; [apply bytes_of_hex_b2a_hex|].
  rewrite asla_walk_envelope, fad_walk_envelope by lia.
  unfold dispatch. rewrite Hreg. split; reflexivity.
Qed.

Lemma fallback_record_reads_back_witness :
  leaf_tlvs 65535 = None /\
  0 <= 65535 < 65536 /\
  Z.of_nat (length [xde; xad; xbe; xef]) < 65536 /\
  exists digits,
    bytes_of_hex digits = Some [xde; xad; xbe; xef] /\
    AppSpecLinkAttr.sub_tlvs_loop leaf_tlvs
      (envelope 65535 [xde; xad; xbe; xef] ++ []) []
    = AppSpecLinkAttr.sub_tlvs_loop leaf_tlvs []
        ([] ++
         [VDict [("type"%string, VInt 65535);
                 ("value"%string, VStr ("b'" ++ digits ++ "'"))]]).
Proof.
  assert (H1 : leaf_tlvs 65535 = None) by reflexivity.
  assert (H2 : 0 <= 65535 < 65536) by lia.
  assert (H3 : Z.of_nat (length [xde; xad; xbe; xef]) < 65536) by (simpl; lia).
  split; [exact H1|]. split; [exact H2|]. split; [exact H3|].
  destruct (fallback_record_reads_back leaf_tlvs 65535 [xde; xad; xbe; xef] [] []
              H1 H2 H3) as (digits & Hd & Ha & _).
  exists digits. split; [exact Hd|exact Ha].
Defined.

(** ** MultiTopologyIdentifier: size and range of the result *)

(** X14.  Whenever the decoder of MultiTopologyIdentifier returns, the
    buffer had an even length, the list holds one number per 2 bytes of
    the buffer, and every number lies in 0..65535. *)
Theorem mt_id_values_bounded (data : bytes) (t : tlv) :
  MultiTopologyIdentifier.unpack data = Return t ->
  exists vs,
    t = mk_tlv 263 "mt_id" (VList (map VInt vs)) /\
    (2 * length vs = length data)%nat /\
    Forall (fun v => 0 <= v < 65536) vs.
Proof.
  intros Hret. unfold MultiTopologyIdentifier.unpack in Hret.
  destruct (MultiTopologyIdentifier.unpack_loop data []) as [items|e] eqn:Hloop;
    [|discriminate Hret].
  cbn [bind] in Hret. injection Hret as <-.
  apply mt_loop_inv in Hloop. destruct Hloop as [Hmod ->].
  exists (chunk_values 2 data). split; [reflexivity|]. split.
  - rewrite length_chunk_values. div_mod_facts (length data) 2%nat. lia.
  - apply Forall_forall. intros v Hin.
    change 65536 with (256 ^ Z.of_nat 2).
    apply (chunk_values_range 2 data); [lia|exact Hin].
Qed.

Lemma mt_id_values_bounded_witness :
  MultiTopologyIdentifier.unpack [xff;xff; x00;x02]
  = Return (mk_tlv 263 "mt_id" (VList [VInt 65535; VInt 2])) /\
  exists vs : list Z, (2 * length vs = 4)%nat.
Proof.
  split; [reflexivity|].
  destruct (mt_id_values_bounded [xff;xff; x00;x02] _ eq_refl)
    as (vs & _ & Hlen & _).
  exists vs. exact Hlen.
Defined.

(** ** The containers on a well-formed layout *)

Lemma slice_after_header (a b c d : byte) (l : bytes) (i j : nat) :
  slice (a :: b :: c :: d :: l) (4 + i) (4 + j) = slice l i j /\
  skipn (4 + i) (a :: b :: c :: d :: l) = skipn i l.
Proof.
  unfold slice. replace (4 + j - (4 + i))%nat with (j - i)%nat by lia.
  split; reflexivity.
Qed.

Lemma slice_masks (sabm udabm rest : bytes) :
  slice (sabm ++ udabm ++ rest) 0 (0 + length sabm) = sabm /\
  slice (sabm ++ udabm ++ rest) (0 + length sabm)
    (0 + length sabm + length udabm) = udabm /\
  skipn (0 + length sabm + length udabm) (sabm ++ udabm ++ rest) = rest.
Proof.
  unfold slice. cbn [Nat.add].
  replace (length sabm - 0)%nat with (length sabm) by lia.
  replace (length sabm + length udabm - length sabm)%nat
    with (length udabm) by lia.
  split; [|split].
  - simpl skipn. rewrite firstn_app, Nat.sub_diag, firstn_all. simpl.
    apply app_nil_r.
  - rewrite skipn_app, Nat.sub_diag, skipn_all. simpl.
    rewrite firstn_app, Nat.sub_diag, firstn_all. simpl. apply app_nil_r.
  - rewrite skipn_app, skipn_all2 by lia.
    replace (length sabm + length udabm - length sabm)%nat
      with (length udabm) by lia.
    rewrite skipn_app, Nat.sub_diag, skipn_all. reflexivity.
Qed.

(** X15.  A buffer laid out as the formats of the two containers
    prescribe decodes to its parts.  For AppSpecLinkAttr: the two length
    bytes, two reserved bytes of any value, the SABM and the UDABM of the
    declared lengths and a sequence of complete sub-TLVs give the two
    lengths, the two mask texts and the records of the sub-TLVs in order.
    For FlexAlgorithmDefine: four fixed bytes and a sequence of complete
    sub-TLVs give the four fields and the records in order.  In both the
    first sub-TLV decoder that raises makes the decode raise the same
    exception. *)
Theorem containers_decode_layout (reg : registry) (sabm udabm : bytes)
    (r2 r3 f0 f1 f2 f3 : byte) (tlvs : list (Z * bytes)) :
  Z.of_nat (length sabm) < 256 ->
  Z.of_nat (length udabm) < 256 ->
  forallb envelope_ok tlvs = true ->
  AppSpecLinkAttr.unpack reg
    (byte_of_Z (Z.of_nat (length sabm)) :: byte_of_Z (Z.of_nat (length udabm))
     :: r2 :: r3 :: sabm ++ udabm ++ envelopes tlvs)
  = (sub_tlvs <-
       for_each tlvs
         (fun tv acc =>
            item <- dispatch reg (fst tv) (snd tv) ;; Return (acc ++ [item]))
         [] ;;
     Return (mk_tlv 1122 "ASLA" (VDict
       [("sabm"%string,
         VDict [("len"%string, VInt (Z.of_nat (length sabm)));
                ("value"%string, mask_value (Z.of_nat (length sabm)) sabm)]);
        ("udabm"%string,
         VDict [("len"%string, VInt (Z.of_nat (length udabm)));
                ("value"%string, mask_value (Z.of_nat (length udabm)) udabm)]);
        ("sub_tlvs"%string, VList sub_tlvs)]))) /\
  FlexAlgorithmDefine.unpack reg (f0 :: f1 :: f2 :: f3 :: envelopes tlvs)
  = (sub_tlvs <-
       for_each tlvs
         (fun tv acc =>
            item <- dispatch reg (fst tv) (snd tv) ;; Return (acc ++ [item]))
         [] ;;
     Return (mk_tlv 1039 "flex_algo_defn" (VDict
       [("flex_algo"%string, VInt (byte_val f0));
        ("metric_type"%string, VInt (byte_val f1));
        ("calc_type"%string, VInt (byte_val f2));
        ("priority"%string, VInt (byte_val f3));
        ("sub_tlvs"%string, VList sub_tlvs)]))).
Proof.
  intros Hs Hu Hok. split.
  - rewrite asla_unpack_steps. cbn [nth_error]. cbv zeta.
    rewrite !byte_val_byte_of_Z by lia. rewrite !Nat2Z.id.
    destruct (slice_after_header
                (byte_of_Z (Z.of_nat (length sabm)))
                (byte_of_Z (Z.of_nat (length udabm))) r2 r3
                (sabm ++ udabm ++ envelopes tlvs) 0 (0 + length sabm))
      as [E1 _].
    destruct (slice_after_header
                (byte_of_Z (Z.of_nat (length sabm)))
                (byte_of_Z (Z.of_nat (length udabm))) r2 r3
                (sabm ++ udabm ++ envelopes tlvs) (0 + length sabm)
                (0 + length sabm + length udabm))
      as [E2 _].
    destruct (slice_after_header
                (byte_of_Z (Z.of_nat (length sabm)))
                (byte_of_Z (Z.of_nat (length udabm))) r2 r3
                (sabm ++ udabm ++ envelopes tlvs)
                (0 + length sabm + length udabm) 0)
      as [_ E3].
    destruct (slice_masks sabm udabm (envelopes tlvs)) as (M1 & M2 & M3).
    rewrite M1 in E1. rewrite M2 in E2. rewrite M3 in E3.
    cbn [Nat.add] in E1, E2, E3. cbn [Nat.add].
    rewrite E1, E2, E3.
    unfold mask_short. rewrite !Nat2Z.id, !Nat.eqb_refl, !andb_false_r.
    rewrite asla_walk_envelopes by exact Hok. reflexivity.
  - rewrite fad_unpack_steps.
    rewrite <- (walks_agree_bounded reg _ _ _ (Nat.le_refl _)).
    rewrite asla_walk_envelopes by exact Hok. reflexivity.
Qed.

Lemma containers_decode_layout_witness :
  Z.of_nat (length [x10;x00;x00]) < 256 /\
  Z.of_nat (length (@nil byte)) < 256 /\
  forallb envelope_ok [(1043, [x80; x00])] = true /\
  AppSpecLinkAttr.unpack leaf_tlvs
    [x03;x00;xaa;xbb; x10;x00;x00; x04;x13;x00;x02; x80;x00]
  = Return (mk_tlv 1122 "ASLA" (VDict
      [("sabm"%string,
        VDict [("len"%string, VInt 3); ("value"%string, VStr "0x100000")]);
       ("udabm"%string, VDict [("len"%string, VInt 0); ("value"%string, VNone)]);
       ("sub_tlvs"%string,
        VList [VDict [("type"%string, VStr "flex_algo_defn_flags");
                      ("value"%string, VDict [("M"%string, VInt 1)])]])])).
Proof.
  assert (H1 : Z.of_nat (length [x10;x00;x00]) < 256) by (simpl; lia).
  assert (H2 : Z.of_nat (length (@nil byte)) < 256) by (simpl; lia).
  split; [exact H1|]. split; [exact H2|]. split; [reflexivity|].
  exact (proj1 (containers_decode_layout leaf_tlvs [x10;x00;x00] [] xaa xbb
                  x00 x00 x00 x00 [(1043, [x80; x00])] H1 H2 eq_refl)).
Defined.
